(** * dagster_aws.ecs.tasks: a shallow embedding and its properties

    The module [dagster_aws/ecs/tasks.py] derives the definition of a new
    ECS task from the definition of the task the current process runs in,
    polls the eventually consistent ECS API for a launched task, and
    projects an observed task onto a launch configuration.

    Python documents (the JSON objects boto3 and the metadata endpoint
    return) are embedded as the inductive type [value]; dictionaries are
    finite maps with string keys.  Python exceptions are embedded as the
    type [exn] and fallible code returns a [result].  Code that talks to
    a stateful collaborator, or that mutates an object the caller still
    holds, threads that state explicitly. *)

From stdpp Require Import gmap strings list fin_maps.
From Stdlib Require Import ZArith.


(** ** Python values *)

#[warnings="-register-all"]
Inductive value :=
  | VNone
  | VBool (b : bool)
  | VInt (z : Z)
  | VStr (s : string)
  | VList (l : list value)
  | VDict (d : gmap string value).

Abbreviation dict := (gmap string value).

(** [==] on documents is structural equality.  (Python additionally
    identifies [True] with [1]; no comparison of the module is between a
    boolean and a number.) *)
Global Instance value_eq_dec : EqDecision value.
Proof.
  refine (fix go (x y : value) {struct x} : Decision (x = y) :=
    match x, y with
    | VNone, VNone => left _
    | VBool a, VBool b => cast_if (decide (a = b))
    | VInt a, VInt b => cast_if (decide (a = b))
    | VStr a, VStr b => cast_if (decide (a = b))
    | VList a, VList b => cast_if (@decide (a = b) (@list_eq_dec _ go a b))
    | VDict a, VDict b =>
        cast_if (@decide (a = b) (@gmap_eq_dec _ _ _ _ go a b))
    | _, _ => right _
    end); congruence.
Defined.

Global Instance value_inhabited : Inhabited value := populate VNone.

(** Truth value of an object in a condition ([if x], [x or y]). *)
Definition truthy (v : value) : bool :=
  match v with
  | VNone => false
  | VBool b => b
  | VInt z => negb (Z.eqb z 0)
  | VStr s => match s with EmptyString => false | String _ _ => true end
  | VList l => match l with [] => false | _ :: _ => true end
  | VDict d => negb (bool_decide (dom d = (∅ : gset string)))
  end.

(** ** Exceptions and results *)

Inductive exn :=
  | StopIteration
  | KeyError
  | IndexError
  | TypeError
  | ValueError
  | AttributeError
  | MissingSchema                   (* requests.exceptions.MissingSchema *)
  | EcsNoTasksFound
  | EcsEventualConsistencyTimeout
  | External (name : string).       (* an error of a collaborator *)

Global Instance exn_eq_dec : EqDecision exn.
Proof. solve_decision. Defined.

Inductive result (A : Type) :=
  | Ok (a : A)
  | Err (e : exn).
Arguments Ok {A} a.
Arguments Err {A} e.

Global Instance result_eq_dec {A} `{EqDecision A} : EqDecision (result A).
Proof. solve_decision. Defined.

Global Instance result_ret : MRet result := fun _ a => Ok a.
Global Instance result_bind : MBind result := fun _ _ f m =>
  match m with
  | Ok a => f a
  | Err e => Err e
  end.

Definition is_err {A} (r : result A) : Prop :=
  match r with Ok _ => False | Err _ => True end.

(** ** Operations on documents *)

(** [v[k]] for a string key [k]: only a dictionary can be subscripted
    by a string. *)
Definition getitem (v : value) (k : string) : result value :=
  match v with
  | VDict d => match d !! k with Some x => Ok x | None => Err KeyError end
  | _ => Err TypeError
  end.

(** [v[i]] for an integer index [i >= 0]. *)
Definition getindex (v : value) (i : nat) : result value :=
  match v with
  | VList l => match l !! i with Some x => Ok x | None => Err IndexError end
  | VStr s =>
      match String.get i s with
      | Some c => Ok (VStr (String c EmptyString))
      | None => Err IndexError
      end
  | VDict _ => Err KeyError
  | _ => Err TypeError
  end.

(** [v.get(k)]: only dictionaries have the method. *)
Definition dict_get (v : value) (k : string) : result value :=
  match v with
  | VDict d => Ok (default VNone (d !! k))
  | _ => Err AttributeError
  end.

(** [d.get(k)] on something known to be a dictionary. *)
Definition get (d : dict) (k : string) : value := default VNone (d !! k).

(** The elements [for x in v] visits.  A dictionary yields its keys (the
    order of insertion is not part of the model). *)
Definition iter_value (v : value) : result (list value) :=
  match v with
  | VList l => Ok l
  | VStr s =>
      Ok ((fun c => VStr (String c EmptyString))
            <$> String.list_ascii_of_string s)
  | VDict d => Ok (VStr <$> (map_to_list d).*1)
  | _ => Err TypeError
  end.

(** [next(iter(l))] *)
Definition next_iter (l : list value) : result value :=
  match l with
  | [] => Err StopIteration
  | x :: _ => Ok x
  end.

(** [l.remove(x)]: drops the first element equal to [x]. *)
Fixpoint list_remove (x : value) (l : list value) : result (list value) :=
  match l with
  | [] => Err ValueError
  | y :: l' =>
      if bool_decide (y = x) then Ok l'
      else l'' ← list_remove x l'; Ok (y :: l'')
  end.

(** [d.update(d')] *)
Definition dict_update (d d' : dict) : dict := d' ∪ d.

(** Modelled from the spec: [merge_dicts] of [dagster.utils] is imported by
    tasks.py and is not among the sources.  It returns a new dictionary
    holding the keys of all its arguments, where a later argument overrides
    an earlier one ("build a copy ..., then override"). *)
Definition merge_dicts (args : list dict) : dict :=
  foldl dict_update ∅ args.

(** [{k: v} if v else {}] *)
Definition optional_entry (k : string) (v : value) : dict :=
  if truthy v then {[ k := v ]} else ∅.

(** ** The launch configuration *)

Module DagsterEcsTaskConfig.

(** The annotations of the dataclass are not enforced when the program
    runs, so that every field holds a [value]. *)
Record t := mk {
  image : value;
  container_name : value;
  command : value;
  family : value;
  cluster : value;
  subnets : value;
  security_groups : value;
  execution_role_arn : value;
  task_role_arn : value;
  assign_public_ip : value;
  secrets : value;
  environment : value;
  log_configuration : value
}.

(** The parameters of the generated [__init__], none with a default. *)
Definition fields : list string :=
  ["image"; "container_name"; "command"; "family"; "cluster"; "subnets";
   "security_groups"; "execution_role_arn"; "task_role_arn";
   "assign_public_ip"; "secrets"; "environment"; "log_configuration"].

Definition arg (kwargs : dict) (name : string) : result value :=
  match kwargs !! name with
  | Some v => Ok v
  | None => Err TypeError     (* missing required argument *)
  end.

(** A call [DagsterEcsTaskConfig(k1=v1, ..., kn=vn)]. *)
Definition init (kwargs : dict) : result t :=
  if bool_decide (dom kwargs ⊆ (list_to_set fields : gset string)) then
    a1 ← arg kwargs "image";
    a2 ← arg kwargs "container_name";
    a3 ← arg kwargs "command";
    a4 ← arg kwargs "family";
    a5 ← arg kwargs "cluster";
    a6 ← arg kwargs "subnets";
    a7 ← arg kwargs "security_groups";
    a8 ← arg kwargs "execution_role_arn";
    a9 ← arg kwargs "task_role_arn";
    a10 ← arg kwargs "assign_public_ip";
    a11 ← arg kwargs "secrets";
    a12 ← arg kwargs "environment";
    a13 ← arg kwargs "log_configuration";
    Ok (mk a1 a2 a3 a4 a5 a6 a7 a8 a9 a10 a11 a12 a13)
  else Err TypeError.         (* unexpected keyword argument *)

Definition network_configuration (self : t) : dict :=
  {[ "awsvpcConfiguration" :=
       VDict (<["subnets" := subnets self]>
             (<["assignPublicIp" := assign_public_ip self]>
             (<["securityGroups" := security_groups self]> ∅))) ]}.

Definition container_definition (self : t) : dict :=
  merge_dicts
    [ <["name" := container_name self]> (<["image" := image self]> ∅);
      optional_entry "logConfiguration" (log_configuration self);
      optional_entry "command" (command self);
      optional_entry "secrets" (secrets self);
      optional_entry "environment" (environment self) ].

Definition task_definition (self : t) : dict :=
  let kwargs : dict :=
    <["family" := family self]>
    (<["requiresCompatibilities" := VList [VStr "FARGATE"]]>
    (<["networkMode" := VStr "awsvpc"]>
    (<["containerDefinitions" := VList [VDict (container_definition self)]]>
    (<["executionRoleArn" := execution_role_arn self]>
    (<["cpu" := VStr "256"]>
    (<["memory" := VStr "512"]> ∅)))))) in
  if truthy (task_role_arn self)
  then dict_update kwargs {[ "taskRoleArn" := task_role_arn self ]}
  else kwargs.

End DagsterEcsTaskConfig.

(** ** The poller: describing a task the API may not know yet *)

(** 9 retries polls for up to 51.1 seconds with exponential backoff. *)
Definition BACKOFF_RETRIES : nat := 9.

(** Code that calls a stateful collaborator: the state is threaded and an
    exception leaves it as it was when the exception was raised. *)
Definition io (St A : Type) : Type := St → result A * St.

(** The ECS client as the poller sees it: the outcome of the [n]-th call
    of [describe_tasks] made on it.  The state of a computation that uses
    the client is the number of calls made so far. *)
Definition ecs_client : Type := nat → result value.

(** [describe_task_or_raise], the function local to [current_ecs_task]:
    one call of [describe_tasks]; an [IndexError] raised anywhere in
    [ecs.describe_tasks(...)["tasks"][0]] becomes [EcsNoTasksFound]. *)
Definition describe_task_or_raise (ecs : ecs_client) : io nat value :=
  fun n =>
    let r := response ← ecs n;
             tasks ← getitem response "tasks";
             getindex tasks 0 in
    (match r with
     | Err IndexError => Err EcsNoTasksFound
     | _ => r
     end, S n).

(** Modelled from the spec: [backoff] of [dagster.utils.backoff] is imported
    by tasks.py and is not among the sources.  It calls [fn], retries only
    on an exception of [retry_on] while retries remain, lets any other
    exception through at once, and raises the last retried exception when
    the retries are exhausted.  [remaining] counts the retries left after
    the call being made.  The delay before a retry is not part of the
    model. *)
Fixpoint backoff_attempt {St A} (fn : io St A) (retry_on : exn → bool)
    (remaining : nat) : io St A :=
  fun s =>
    match fn s with
    | (Ok v, s') => (Ok v, s')
    | (Err e, s') =>
        if retry_on e then
          match remaining with
          | 0 => (Err e, s')
          | S r => backoff_attempt fn retry_on r s'
          end
        else (Err e, s')
    end.

(** Modelled from the spec: the call [backoff(fn, retry_on=..., max_retries=n)].
    How [n] counts is taken from tasks.py, which passes
    [max_retries=BACKOFF_RETRIES] and says of it "9 retries polls for up to
    51.1 seconds with exponential backoff": [n] is the number of retries
    after the first call (nine delays doubling from 0.1 s add up to
    51.1 s), so that [fn] is called up to [n + 1] times. *)
Definition backoff {St A} (fn : io St A) (retry_on : exn → bool)
    (max_retries : nat) : io St A :=
  backoff_attempt fn retry_on max_retries.

Definition current_ecs_task (ecs : ecs_client) : io nat value :=
  fun n =>
    match backoff (describe_task_or_raise ecs)
                  (fun e => bool_decide (e = EcsNoTasksFound))
                  BACKOFF_RETRIES n with
    | (Err EcsNoTasksFound, n') => (Err EcsEventualConsistencyTimeout, n')
    | r => r
    end.

(** ** The metadata endpoint *)

(** What the process reads from its surroundings: the environment
    variables and the JSON document an HTTP GET of a URL returns (or the
    exception [requests] raises for it). *)
Record world := {
  environ : gmap string string;
  http_json : string → result value
}.

(** [requests.get(url).json()]; [requests] rejects a URL that is [None]. *)
Definition requests_get_json (w : world) (url : option string)
    : result value :=
  match url with
  | None => Err MissingSchema
  | Some u => http_json w u
  end.

Module CurrentEcsTaskMetadata.
Record t := mk { cluster : value; task_arn : value }.
End CurrentEcsTaskMetadata.

Definition _container_metadata_uri (w : world) : option string :=
  environ w !! "ECS_CONTAINER_METADATA_URI_V4".

Definition current_ecs_task_metadata (w : world)
    : result CurrentEcsTaskMetadata.t :=
  task_metadata_uri ←
    match _container_metadata_uri w with
    | Some u => Ok (u +:+ "/task")
    | None => Err TypeError              (* None + "/task" *)
    end;
  response ← requests_get_json w (Some task_metadata_uri);
  cluster ← dict_get response "Cluster";
  task_arn ← dict_get response "TaskARN";
  Ok (CurrentEcsTaskMetadata.mk cluster task_arn).

Definition current_ecs_container_name (w : world) : result value :=
  response ← requests_get_json w (_container_metadata_uri w);
  getitem response "Name".

(** ** The synthesizer of task definitions *)

(** The list comprehension
    [[c for c in containers if c["name"] == current_container_name]]. *)
Fixpoint containers_named (current_container_name : value)
    (containers : list value) : result (list value) :=
  match containers with
  | [] => Ok []
  | container :: rest =>
      name ← getitem container "name";
      selected ← containers_named current_container_name rest;
      Ok (if bool_decide (name = current_container_name)
          then container :: selected else selected)
  end.

(** [dict((key, d[key]) for key in expected_keys if key in d.keys())] *)
Definition restrict_keys (expected_keys : list string) (d : dict) : dict :=
  foldl (fun acc key =>
           match d !! key with
           | Some v => <[key := v]> acc
           | None => acc
           end) ∅ expected_keys.

(** The container definition of the new task (lines 130-141). *)
Definition new_container_definition (container_definition : dict)
    (image container_name environment command secrets : value)
    (include_sidecars : bool) : dict :=
  merge_dicts
    [ <["command" := if truthy command then command else VList []]>
      (<["entryPoint" := VList []]>
      (<["image" := image]>
      (<["name" := container_name]> container_definition)));
      optional_entry "environment" environment;
      optional_entry "secrets" secrets;
      if include_sidecars then ∅ else {[ "dependsOn" := VList [] ]} ].

(** [default_ecs_task_definition].  [expected_keys] stands for
    [ecs.meta.service_model.shape_for("RegisterTaskDefinitionRequest").members].
    The state is the dictionary the caller passes as
    [current_task_definition]: the function returns its result together
    with what that dictionary holds after the call. *)
Definition default_ecs_task_definition (w : world)
    (expected_keys : list string) (family image container_name environment
    command secrets : value) (include_sidecars : bool) : io dict dict :=
  fun current_task_definition =>
    let located :=
      current_container_name ← current_ecs_container_name w;
      containers ← getitem (VDict current_task_definition)
                           "containerDefinitions";
      containers ← iter_value containers;
      selected ← containers_named current_container_name containers;
      next_iter selected in
    match located with
    | Err e => (Err e, current_task_definition)
    | Ok (VDict container_definition) =>
        let task_definition :=
          restrict_keys expected_keys current_task_definition in
        let new_container :=
          new_container_definition container_definition image
            container_name environment command secrets include_sidecars in
        let finish (container_definitions : value) : dict :=
          <["containerDefinitions" := container_definitions]>
          (<["family" := family]> task_definition) in
        if include_sidecars then
          match get current_task_definition "containerDefinitions" with
          | VList container_definitions =>
              match list_remove (VDict container_definition)
                                container_definitions with
              | Ok remaining =>
                  let container_definitions :=
                    VList (remaining ++ [VDict new_container]) in
                  (Ok (finish container_definitions),
                   <["containerDefinitions" := container_definitions]>
                     current_task_definition)
              | Err e => (Err e, current_task_definition)
              end
          | _ => (Err AttributeError, current_task_definition)
          end
        else
          (Ok (finish (VList [VDict new_container])),
           current_task_definition)
    | Ok _ => (Err TypeError, current_task_definition)
    end.

(** ** The projector: from an observed task to a launch configuration *)

(** A [boto3] network interface resource: the two attributes read. *)
Record NetworkInterface := {
  association_attribute : value;
  groups : value
}.

(** The loop over the details of one attachment (lines 225-229). *)
Fixpoint scan_details (ec2 : value → NetworkInterface)
    (details : list value) (acc : list NetworkInterface * list value)
    : result (list NetworkInterface * list value) :=
  match details with
  | [] => Ok acc
  | detail :: rest =>
      name ← getitem detail "name";
      subnets ←
        (if bool_decide (name = VStr "subnetId")
         then v ← getitem detail "value"; Ok (acc.2 ++ [v])
         else Ok acc.2);
      name ← getitem detail "name";
      enis ←
        (if bool_decide (name = VStr "networkInterfaceId")
         then v ← getitem detail "value"; Ok (acc.1 ++ [ec2 v])
         else Ok acc.1);
      scan_details ec2 rest (enis, subnets)
  end.

(** The loop over the attachments of the task (lines 223-229). *)
Fixpoint scan_attachments (ec2 : value → NetworkInterface)
    (attachments : list value) (acc : list NetworkInterface * list value)
    : result (list NetworkInterface * list value) :=
  match attachments with
  | [] => Ok acc
  | attachment :: rest =>
      type ← getitem attachment "type";
      acc' ←
        (if bool_decide (type = VStr "ElasticNetworkInterface")
         then details ← getitem attachment "details";
              details ← iter_value details;
              scan_details ec2 details acc
         else Ok acc);
      scan_attachments ec2 rest acc'
  end.

(** [for group in eni.groups: security_groups.append(group["GroupId"])] *)
Fixpoint scan_groups (groups : list value) (security_groups : list value)
    : result (list value) :=
  match groups with
  | [] => Ok security_groups
  | group :: rest =>
      id ← getitem group "GroupId";
      scan_groups rest (security_groups ++ [id])
  end.

(** The loop over the collected interfaces (lines 231-237). *)
Fixpoint scan_enis (enis : list NetworkInterface)
    (acc : bool * list value) : result (bool * list value) :=
  match enis with
  | [] => Ok acc
  | eni :: rest =>
      let association :=
        if truthy (association_attribute eni)
        then association_attribute eni else VDict ∅ in
      ip ← dict_get association "PublicIp";
      let public_ip := if truthy ip then true else acc.1 in
      groups ← iter_value (groups eni);
      security_groups ← scan_groups groups acc.2;
      scan_enis rest (public_ip, security_groups)
  end.

Definition current_ecs_task_config (ec2 : value → NetworkInterface)
    (cluster task : value) (task_definition : dict)
    (environment secrets container_name image : value)
    : result DagsterEcsTaskConfig.t :=
  attachments ← getitem task "attachments";
  attachments ← iter_value attachments;
  found ← scan_attachments ec2 attachments ([], []);
  let enis := found.1 in
  let subnets := found.2 in
  inspected ← scan_enis enis (false, []);
  let public_ip : bool := inspected.1 in
  let security_groups := inspected.2 in
  let execution_role_arn := get task_definition "executionRoleArn" in
  let task_role_arn := get task_definition "taskRoleArn" in
  family ← getitem (VDict task_definition) "family";
  DagsterEcsTaskConfig.init
    (<["container_name" := container_name]>
    (<["image" := image]>
    (<["family" := family]>
    (<["cluster" := cluster]>
    (<["subnets" := VList subnets]>
    (<["security_groups" := VList security_groups]>
    (<["execution_role_arn" := execution_role_arn]>
    (<["task_role_arn" := task_role_arn]>
    (<["assign_public_ip" :=
         VStr (if public_ip then "ENABLED" else "DISABLED")]>
    (<["environment" := environment]>
    (<["secrets" := secrets]> ∅))))))))))).

(** ** Vocabulary of the statements *)

(** What the [n]-th call of [describe_task_or_raise] returns or raises. *)
Definition describe_outcome (ecs : ecs_client) (n : nat) : result value :=
  (describe_task_or_raise ecs n).1.

(** The name a container definition carries, if it is a dictionary that
    has one. *)
Definition name_of (container : value) : option value :=
  match container with
  | VDict d => d !! "name"
  | _ => None
  end.

Definition has_name (container : value) : Prop := is_Some (name_of container).

Definition named (name : value) (container : value) : Prop :=
  name_of container = Some name.

Definition other_than (name : value) (container : value) : Prop :=
  has_name container ∧ ¬ named name container.

Global Instance has_name_dec c : Decision (has_name c).
Proof. unfold has_name. apply _. Defined.

Global Instance named_dec name c : Decision (named name c).
Proof. unfold named. apply _. Defined.

Global Instance other_than_dec name c : Decision (other_than name c).
Proof. unfold other_than. apply _. Defined.

(** The container definitions of a task definition document, and the one
    [default_ecs_task_definition] puts last. *)
Definition container_definitions_of (task_definition : dict) : list value :=
  match task_definition !! "containerDefinitions" with
  | Some (VList l) => l
  | _ => []
  end.

Definition synthesized_container (task_definition : dict) : option dict :=
  match last (container_definitions_of task_definition) with
  | Some (VDict d) => Some d
  | _ => None
  end.

(** ** Sample inputs *)

(** A client that knows the task from its third answer on, one that knows
    it from its tenth answer on, one that never knows it, and one whose
    first call is refused. *)
Definition ecs_after_two : ecs_client :=
  fun n =>
    Ok (VDict {[ "tasks" :=
                   VList (if n <? 2 then [] else [VStr "arn:task"]) ]}).

Definition ecs_after_nine : ecs_client :=
  fun n =>
    Ok (VDict {[ "tasks" :=
                   VList (if n <? 9 then [] else [VStr "arn:task"]) ]}).

Definition ecs_never : ecs_client :=
  fun _ => Ok (VDict {[ "tasks" := VList [] ]}).

Definition ecs_denied : ecs_client :=
  fun _ => Err (External "AccessDeniedException").

(** A process inside a Fargate task, in the container called ["run"]. *)
Definition metadata_uri : string := "http://169.254.170.2/v4/0a1b".

Definition fargate_world : world := {|
  environ := {[ "ECS_CONTAINER_METADATA_URI_V4" := metadata_uri ]};
  http_json := fun url =>
    if decide (url = metadata_uri) then
      Ok (VDict {[ "Name" := VStr "run" ]})
    else if decide (url = metadata_uri +:+ "/task") then
      Ok (VDict (<["Cluster" := VStr "arn:cluster"]>
                (<["TaskARN" := VStr "arn:task"]> ∅)))
    else Err (External "ConnectionError")
|}.

(** The same process when the task endpoint answers with an empty
    object, and a process outside ECS. *)
Definition bare_world : world := {|
  environ := {[ "ECS_CONTAINER_METADATA_URI_V4" := metadata_uri ]};
  http_json := fun _ => Ok (VDict ∅)
|}.

Definition local_world : world := {|
  environ := ∅;
  http_json := fun _ => Err (External "ConnectionError")
|}.

(** The members of [RegisterTaskDefinitionRequest] the samples use. *)
Definition register_keys : list string :=
  ["family"; "taskRoleArn"; "executionRoleArn"; "networkMode";
   "containerDefinitions"; "requiresCompatibilities"; "cpu"; "memory"].

Definition run_container : dict :=
  <["name" := VStr "run"]>
  (<["image" := VStr "dagster:1"]>
  (<["entryPoint" := VList [VStr "dagster"]]>
  (<["environment" :=
       VList [VDict (<["name" := VStr "STAGE"]>
                    (<["value" := VStr "prod"]> ∅))]]>
  (<["secrets" :=
       VList [VDict (<["name" := VStr "TOKEN"]>
                    (<["valueFrom" := VStr "arn:secret"]> ∅))]]>
  (<["dependsOn" :=
       VList [VDict (<["containerName" := VStr "logs"]>
                    (<["condition" := VStr "START"]> ∅))]]> ∅))))).

Definition logs_container : dict :=
  <["name" := VStr "logs"]> (<["image" := VStr "fluentd:2"]> ∅).

(** The definition of the running task, as [describe_task_definition]
    returns it: with the read-only keys [revision] and [status]. *)
Definition running_task_definition : dict :=
  <["family" := VStr "daemon"]>
  (<["containerDefinitions" :=
       VList [VDict logs_container; VDict run_container]]>
  (<["cpu" := VStr "256"]>
  (<["revision" := VInt 3]>
  (<["status" := VStr "ACTIVE"]> ∅)))).

Definition single_task_definition : dict :=
  <["containerDefinitions" := VList [VDict run_container]]>
    running_task_definition.

(** An observed task with two network interface attachments and one
    attachment of another kind, and the interfaces as EC2 reports them:
    the first has a public address, the second has none. *)
Definition detail (name content : string) : value :=
  VDict (<["name" := VStr name]> (<["value" := VStr content]> ∅)).

Definition attachment (type : string) (details : list value) : value :=
  VDict (<["type" := VStr type]> (<["details" := VList details]> ∅)).

Definition observed_attachments : list value :=
  [ attachment "ElasticNetworkInterface"
      [detail "subnetId" "subnet-1";
       detail "networkInterfaceId" "eni-1";
       detail "macAddress" "0a:1b"];
    attachment "Other" [detail "subnetId" "subnet-0"];
    attachment "ElasticNetworkInterface"
      [detail "subnetId" "subnet-2";
       detail "networkInterfaceId" "eni-2"] ].

Definition observed_task : value :=
  VDict {[ "attachments" := VList observed_attachments ]}.

Definition group (id : string) : value := VDict {[ "GroupId" := VStr id ]}.

Definition sample_ec2 (id : value) : NetworkInterface :=
  if decide (id = VStr "eni-1") then
    {| association_attribute := VDict {[ "PublicIp" := VStr "203.0.113.7" ]};
       groups := VList [group "g1"] |}
  else
    {| association_attribute := VNone;
       groups := VList [group "g2"] |}.

Definition observed_task_definition : dict :=
  <["family" := VStr "daemon"]>
  (<["executionRoleArn" := VStr "arn:role/execution"]> ∅).

(** Whether a network interface reports an associated public address, and
    the identifiers of its security groups. *)
Definition reports_public_ip (eni : NetworkInterface) : bool :=
  match association_attribute eni with
  | VDict d => truthy (get d "PublicIp")
  | _ => false
  end.

Definition group_ids (eni : NetworkInterface) : list value :=
  match groups eni with
  | VList l => omap (fun g => match g with
                           | VDict d => d !! "GroupId"
                           | _ => None
                           end) l
  | _ => []
  end.

(** ** Vocabulary of the further statements *)

(** The details of the attachments of the network interface kind, in the
    order of the task, and the values of the details of a given name. *)
Definition interface_details (attachments : list value) : list value :=
  attachments ≫= fun a =>
    match a with
    | VDict d =>
        if bool_decide (d !! "type" = Some (VStr "ElasticNetworkInterface"))
        then match d !! "details" with
             | Some v => match iter_value v with Ok l => l | Err _ => [] end
             | None => []
             end
        else []
    | _ => []
    end.

Definition detail_values (key : string) (details : list value)
    : list value :=
  omap (fun x =>
          match x with
          | VDict m =>
              if bool_decide (m !! "name" = Some (VStr key))
              then m !! "value" else None
          | _ => None
          end) details.

(** The shape of the documents the loops of the projector read without
    an exception: a detail is a dictionary with a [name], and with a
    [value] if the name is one of the two the loop looks for; an
    attachment is a dictionary with a [type], and with a list of such
    details if it is a network interface; an interface has no association
    or a dictionary for one, and a list of groups with a [GroupId]. *)
Definition readable_detail (x : value) : bool :=
  match x with
  | VDict m =>
      match m !! "name" with
      | Some n =>
          if bool_decide (n = VStr "subnetId")
             || bool_decide (n = VStr "networkInterfaceId")
          then bool_decide (is_Some (m !! "value"))
          else true
      | None => false
      end
  | _ => false
  end.

Definition readable_attachment (a : value) : bool :=
  match a with
  | VDict d =>
      match d !! "type" with
      | Some type =>
          if bool_decide (type = VStr "ElasticNetworkInterface")
          then match d !! "details" with
               | Some (VList l) => forallb readable_detail l
               | _ => false
               end
          else true
      | None => false
      end
  | _ => false
  end.

Definition readable_group (g : value) : bool :=
  match g with
  | VDict d => bool_decide (is_Some (d !! "GroupId"))
  | _ => false
  end.

Definition readable_interface (eni : NetworkInterface) : bool :=
  match association_attribute eni with
  | VNone | VDict _ => true
  | _ => false
  end
  && match groups eni with
     | VList l => forallb readable_group l
     | _ => false
     end.

(** The keyword arguments that pass every field of a configuration. *)
Definition kwargs_of (c : DagsterEcsTaskConfig.t) : dict :=
  <["image" := DagsterEcsTaskConfig.image c]>
  (<["container_name" := DagsterEcsTaskConfig.container_name c]>
  (<["command" := DagsterEcsTaskConfig.command c]>
  (<["family" := DagsterEcsTaskConfig.family c]>
  (<["cluster" := DagsterEcsTaskConfig.cluster c]>
  (<["subnets" := DagsterEcsTaskConfig.subnets c]>
  (<["security_groups" := DagsterEcsTaskConfig.security_groups c]>
  (<["execution_role_arn" := DagsterEcsTaskConfig.execution_role_arn c]>
  (<["task_role_arn" := DagsterEcsTaskConfig.task_role_arn c]>
  (<["assign_public_ip" := DagsterEcsTaskConfig.assign_public_ip c]>
  (<["secrets" := DagsterEcsTaskConfig.secrets c]>
  (<["environment" := DagsterEcsTaskConfig.environment c]>
  (<["log_configuration" := DagsterEcsTaskConfig.log_configuration c]>
     ∅)))))))))))).

(** Whether a document is a JSON object (a dictionary). *)
Definition is_object (v : value) : bool :=
  match v with
  | VDict _ => true
  | _ => false
  end.

(** The keys [new_container_definition] may set. *)
Definition overridden_keys : list string :=
  ["name"; "image"; "entryPoint"; "command"; "environment"; "secrets";
   "dependsOn"].

(** ** Further sample inputs *)

Definition sample_config : DagsterEcsTaskConfig.t :=
  DagsterEcsTaskConfig.mk
    (VStr "dagster:1") (VStr "run") VNone (VStr "daemon")
    (VStr "arn:cluster") (VList [VStr "subnet-1"]) (VList [VStr "g1"])
    (VStr "arn:role/execution") VNone (VStr "ENABLED") VNone VNone
    (VDict {[ "logDriver" := VStr "awslogs" ]}).

(** A container definition without a name. *)
Definition nameless_container : dict := {[ "image" := VStr "proxy:1" ]}.

(** A world whose endpoints are down, and one whose endpoints answer with
    a JSON list. *)
Definition unreachable_world : world := {|
  environ := {[ "ECS_CONTAINER_METADATA_URI_V4" := metadata_uri ]};
  http_json := fun _ => Err (External "ConnectionError")
|}.

Definition list_world : world := {|
  environ := {[ "ECS_CONTAINER_METADATA_URI_V4" := metadata_uri ]};
  http_json := fun _ => Ok (VList [])
|}.

(** Clients whose first answer has two tasks, has no [tasks] key, or is an
    [IndexError] raised inside the client. *)
Definition ecs_two_tasks : ecs_client :=
  fun _ => Ok (VDict {[ "tasks" := VList [VStr "arn:a"; VStr "arn:b"] ]}).

Definition ecs_no_key : ecs_client :=
  fun _ => Ok (VDict {[ "failures" := VList [] ]}).

Definition ecs_index_error : ecs_client := fun _ => Err IndexError.

(** * Properties *)

(** ** Dictionaries *)

Lemma lookup_dict_update (d d' : dict) (k : string) :
  dict_update d d' !! k =
  match d' !! k with Some v => Some v | None => d !! k end.
Proof.
  unfold dict_update. rewrite lookup_union.
  destruct (d' !! k), (d !! k); reflexivity.
Qed.

Lemma lookup_optional_entry (k k' : string) (v : value) :
  optional_entry k v !! k' =
  if decide (k = k') then (if truthy v then Some v else None) else None.
Proof.
  unfold optional_entry.
  destruct (truthy v); [| by destruct (decide (k = k'))].
  destruct (decide (k = k')) as [->|Hne].
  - apply lookup_singleton_eq.
  - by apply lookup_singleton_ne.
Qed.

Lemma lookup_merge_dicts_snoc (args : list dict) (d : dict) (k : string) :
  merge_dicts (args ++ [d]) !! k =
  match d !! k with Some v => Some v | None => merge_dicts args !! k end.
Proof.
  unfold merge_dicts. rewrite foldl_app. simpl. apply lookup_dict_update.
Qed.

Lemma truthy_not_None (v : value) : truthy v = true → v ≠ VNone.
Proof. by intros H ->. Qed.

Ltac merge_lookup :=
  unfold merge_dicts; simpl foldl;
  repeat rewrite lookup_dict_update;
  repeat rewrite lookup_optional_entry;
  repeat (rewrite decide_True by reflexivity
          || rewrite decide_False by discriminate).

(** ** The launch configuration *)

Section task_definition.
Import DagsterEcsTaskConfig.
Variable self : DagsterEcsTaskConfig.t.

Lemma task_definition_lookup (k : string) :
  k ≠ "taskRoleArn" →
  task_definition self !! k =
  (<["family" := family self]>
  (<["requiresCompatibilities" := VList [VStr "FARGATE"]]>
  (<["networkMode" := VStr "awsvpc"]>
  (<["containerDefinitions" := VList [VDict (container_definition self)]]>
  (<["executionRoleArn" := execution_role_arn self]>
  (<["cpu" := VStr "256"]>
  (<["memory" := VStr "512"]> (∅ : dict)))))))) !! k.
Proof.
  intros Hk. unfold task_definition.
  destruct (truthy (task_role_arn self)); [| reflexivity].
  rewrite lookup_dict_update. by rewrite lookup_singleton_ne.
Qed.

Lemma task_definition_taskRoleArn :
  task_definition self !! "taskRoleArn" =
  if truthy (task_role_arn self) then Some (task_role_arn self) else None.
Proof.
  unfold task_definition.
  destruct (truthy (task_role_arn self)).
  - rewrite lookup_dict_update. by rewrite lookup_singleton_eq.
  - reflexivity.
Qed.

Lemma container_definition_optional :
  container_definition self !! "logConfiguration" =
    (if truthy (log_configuration self)
     then Some (log_configuration self) else None) ∧
  container_definition self !! "command" =
    (if truthy (command self) then Some (command self) else None) ∧
  container_definition self !! "secrets" =
    (if truthy (secrets self) then Some (secrets self) else None) ∧
  container_definition self !! "environment" =
    (if truthy (environment self) then Some (environment self) else None).
Proof.
  unfold container_definition.
  repeat split; merge_lookup;
    destruct (truthy (log_configuration self)), (truthy (command self)),
      (truthy (secrets self)), (truthy (environment self));
    reflexivity.
Qed.

End task_definition.

(** C10. For every launch configuration, [task_definition] produces a
    document whose [requiresCompatibilities] is [["FARGATE"]], whose
    [networkMode] is ["awsvpc"], whose [cpu] is ["256"] and whose [memory]
    is ["512"]; the key [executionRoleArn] is always present and holds the
    configured execution role (possibly [None]); the key [taskRoleArn] is
    present, with the configured role, exactly when that role is truthy (so
    only when it is set); the document has a single container definition,
    whose keys [command], [secrets], [environment] and [logConfiguration]
    are present, with the configured value, exactly when the corresponding
    field is truthy (neither [None] nor empty). *)
Theorem task_definition_fargate_document (self : DagsterEcsTaskConfig.t) :
  let td := DagsterEcsTaskConfig.task_definition self in
  let cd := DagsterEcsTaskConfig.container_definition self in
  let present (v : value) := if truthy v then Some v else None in
  td !! "requiresCompatibilities" = Some (VList [VStr "FARGATE"]) ∧
  td !! "networkMode" = Some (VStr "awsvpc") ∧
  td !! "cpu" = Some (VStr "256") ∧
  td !! "memory" = Some (VStr "512") ∧
  td !! "executionRoleArn" =
    Some (DagsterEcsTaskConfig.execution_role_arn self) ∧
  td !! "taskRoleArn" = present (DagsterEcsTaskConfig.task_role_arn self) ∧
  td !! "containerDefinitions" = Some (VList [VDict cd]) ∧
  cd !! "command" = present (DagsterEcsTaskConfig.command self) ∧
  cd !! "secrets" = present (DagsterEcsTaskConfig.secrets self) ∧
  cd !! "environment" = present (DagsterEcsTaskConfig.environment self) ∧
  cd !! "logConfiguration" =
    present (DagsterEcsTaskConfig.log_configuration self).
Proof.
  cbv zeta.
  destruct (container_definition_optional self) as (Hlog & Hcmd & Hsec & Henv).
  repeat split;
    try (rewrite task_definition_lookup by discriminate; reflexivity);
    auto using task_definition_taskRoleArn.
Qed.

(** ** The poller *)

Section poller.
Variable ecs : ecs_client.

Let retry_on (e : exn) : bool := bool_decide (e = EcsNoTasksFound).

Lemma describe_task_or_raise_step (n : nat) :
  describe_task_or_raise ecs n = (describe_outcome ecs n, S n).
Proof. reflexivity. Qed.

Lemma describe_outcome_not_IndexError (n : nat) :
  describe_outcome ecs n ≠ Err IndexError.
Proof.
  unfold describe_outcome, describe_task_or_raise. simpl.
  destruct (_ ≫= _) as [v|[]]; discriminate.
Qed.

Lemma backoff_attempt_eventually (k : nat) :
  ∀ (remaining n : nat) (v : value),
    k ≤ remaining →
    (∀ i, i < k → describe_outcome ecs (n + i) = Err EcsNoTasksFound) →
    describe_outcome ecs (n + k) = Ok v →
    backoff_attempt (describe_task_or_raise ecs) retry_on remaining n
    = (Ok v, n + (k + 1)).
Proof.
  induction k as [|k IH]; intros remaining n v Hle Hnot Hok.
  - destruct remaining; cbn [backoff_attempt];
      rewrite describe_task_or_raise_step;
      rewrite Nat.add_0_r in Hok; rewrite Hok; f_equal; lia.
  - destruct remaining as [|remaining]; [lia|].
    cbn [backoff_attempt]. rewrite describe_task_or_raise_step.
    rewrite <- (Nat.add_0_r n) at 1. rewrite (Hnot 0) by lia. simpl.
    rewrite (IH remaining (S n) v).
    + f_equal. lia.
    + lia.
    + intros i Hi. replace (S n + i) with (n + S i) by lia.
      apply Hnot. lia.
    + replace (S n + k) with (n + S k) by lia. exact Hok.
Qed.

Lemma backoff_attempt_exhausted (remaining : nat) :
  ∀ n : nat,
    (∀ i, i ≤ remaining →
          describe_outcome ecs (n + i) = Err EcsNoTasksFound) →
    backoff_attempt (describe_task_or_raise ecs) retry_on remaining n
    = (Err EcsNoTasksFound, n + (remaining + 1)).
Proof.
  induction remaining as [|remaining IH]; intros n Hnot.
  - cbn [backoff_attempt]. rewrite describe_task_or_raise_step.
    rewrite <- (Nat.add_0_r n) at 1. rewrite (Hnot 0) by lia. simpl.
    f_equal. lia.
  - cbn [backoff_attempt]. rewrite describe_task_or_raise_step.
    rewrite <- (Nat.add_0_r n) at 1. rewrite (Hnot 0) by lia. simpl.
    rewrite (IH (S n)).
    + f_equal. lia.
    + intros i Hi. replace (S n + i) with (n + S i) by lia.
      apply Hnot. lia.
Qed.

Lemma backoff_attempt_unrelated (remaining n : nat) (e : exn) :
  e ≠ EcsNoTasksFound →
  describe_outcome ecs n = Err e →
  backoff_attempt (describe_task_or_raise ecs) retry_on remaining n
  = (Err e, n + 1).
Proof.
  intros Hne He.
  destruct remaining; cbn [backoff_attempt];
    rewrite describe_task_or_raise_step, He;
    unfold retry_on; rewrite bool_decide_eq_false_2 by exact Hne;
    f_equal; lia.
Qed.

End poller.

(** C1, as stated, fails: against a client that never knows the task,
    every call of [describe_task_or_raise] raises [EcsNoTasksFound] and
    [current_ecs_task] raises [EcsEventualConsistencyTimeout] after 10
    calls, not 9; and against a client that knows the task from its tenth
    answer on, it returns the task, on the tenth call. *)
Lemma current_ecs_task_exhausts_after_ten_calls :
  (∀ i, describe_outcome ecs_never (0 + i) = Err EcsNoTasksFound) ∧
  current_ecs_task ecs_never 0 = (Err EcsEventualConsistencyTimeout, 10) ∧
  current_ecs_task ecs_after_nine 0 = (Ok (VStr "arn:task"), 10).
Proof. split; [intros i|split]; reflexivity. Qed.

(** C1, amended. Started when [n] calls of [describe_tasks] have been
    made: if [describe_task_or_raise] raises [EcsNoTasksFound] on the next
    [k] calls, [k <= 9], and returns [v] on the call after them,
    [current_ecs_task] returns [v] after exactly [k + 1] calls; if it
    raises [EcsNoTasksFound] on every call, [current_ecs_task] raises
    [EcsEventualConsistencyTimeout] after exactly 10 calls (one call and
    9 retries); if the first call raises any other exception, that
    exception propagates after exactly 1 call. *)
Theorem current_ecs_task_polls (ecs : ecs_client) (n : nat) :
  (∀ (k : nat) (v : value),
     k ≤ 9 →
     (∀ i, i < k → describe_outcome ecs (n + i) = Err EcsNoTasksFound) →
     describe_outcome ecs (n + k) = Ok v →
     current_ecs_task ecs n = (Ok v, n + (k + 1))) ∧
  ((∀ i, describe_outcome ecs (n + i) = Err EcsNoTasksFound) →
   current_ecs_task ecs n = (Err EcsEventualConsistencyTimeout, n + 10)) ∧
  (∀ e : exn,
     e ≠ EcsNoTasksFound →
     describe_outcome ecs n = Err e →
     current_ecs_task ecs n = (Err e, n + 1)).
Proof.
  unfold current_ecs_task, backoff, BACKOFF_RETRIES.
  split; [| split].
  - intros k v Hk Hnot Hok.
    rewrite (backoff_attempt_eventually ecs k 9 n v); auto.
  - intros Hnot.
    rewrite (backoff_attempt_exhausted ecs 9 n); auto.
  - intros e Hne He.
    rewrite (backoff_attempt_unrelated ecs 9 n e); auto.
    destruct e; congruence.
Qed.

Lemma current_ecs_task_polls_witness :
  current_ecs_task ecs_after_two 0 = (Ok (VStr "arn:task"), 3) ∧
  current_ecs_task ecs_after_nine 0 = (Ok (VStr "arn:task"), 10) ∧
  current_ecs_task ecs_never 0 = (Err EcsEventualConsistencyTimeout, 10) ∧
  current_ecs_task ecs_denied 0
  = (Err (External "AccessDeniedException"), 1).
Proof.
  split; [| split; [| split]].
  - apply (proj1 (current_ecs_task_polls ecs_after_two 0) 2 (VStr "arn:task")).
    + lia.
    + intros [|[|i]] Hi; [reflexivity | reflexivity | lia].
    + reflexivity.
  - apply (proj1 (current_ecs_task_polls ecs_after_nine 0) 9 (VStr "arn:task")).
    + lia.
    + intros i Hi. unfold describe_outcome, describe_task_or_raise,
        ecs_after_nine. cbn [fst Nat.add].
      destruct (Nat.ltb_spec i 9) as [_|Hge]; [reflexivity | lia].
    + reflexivity.
  - apply (proj1 (proj2 (current_ecs_task_polls ecs_never 0))).
    intros i. reflexivity.
  - apply (proj2 (proj2 (current_ecs_task_polls ecs_denied 0))).
    + discriminate.
    + reflexivity.
Defined.

(** ** The metadata endpoint *)

Lemma current_ecs_task_metadata_unset (w : world) :
  environ w !! "ECS_CONTAINER_METADATA_URI_V4" = None →
  current_ecs_task_metadata w = Err TypeError.
Proof.
  intros Hunset. unfold current_ecs_task_metadata, _container_metadata_uri.
  by rewrite Hunset.
Qed.

Lemma current_ecs_container_name_unset (w : world) :
  environ w !! "ECS_CONTAINER_METADATA_URI_V4" = None →
  current_ecs_container_name w = Err MissingSchema.
Proof.
  intros Hunset. unfold current_ecs_container_name, _container_metadata_uri.
  by rewrite Hunset.
Qed.

Lemma current_ecs_task_metadata_object (w : world) (uri : string) (d : dict) :
  environ w !! "ECS_CONTAINER_METADATA_URI_V4" = Some uri →
  http_json w (uri +:+ "/task") = Ok (VDict d) →
  current_ecs_task_metadata w
  = Ok (CurrentEcsTaskMetadata.mk (get d "Cluster") (get d "TaskARN")).
Proof.
  intros Hset Hget. unfold current_ecs_task_metadata, _container_metadata_uri.
  rewrite Hset. simpl. by rewrite Hget.
Qed.

Lemma current_ecs_container_name_object (w : world) (uri : string) (d : dict) :
  environ w !! "ECS_CONTAINER_METADATA_URI_V4" = Some uri →
  http_json w uri = Ok (VDict d) →
  current_ecs_container_name w
  = match d !! "Name" with Some name => Ok name | None => Err KeyError end.
Proof.
  intros Hset Hget. unfold current_ecs_container_name, _container_metadata_uri.
  rewrite Hset. simpl. by rewrite Hget.
Qed.

(** ** Locating the container of the current process *)

Lemma getitem_name_of (c n : value) :
  name_of c = Some n → getitem c "name" = Ok n.
Proof. destruct c; simpl; try discriminate. by intros ->. Qed.

Lemma named_VDict (name c : value) :
  named name c → ∃ d, c = VDict d ∧ d !! "name" = Some name.
Proof. destruct c; try discriminate. intros H. by eexists. Qed.

Lemma containers_named_filter (name : value) (l : list value) :
  Forall has_name l →
  containers_named name l = Ok (filter (named name) l).
Proof.
  induction 1 as [|c l [n Hn] _ IH]; [reflexivity|].
  simpl. rewrite (getitem_name_of _ _ Hn). simpl. rewrite IH. simpl.
  rewrite filter_cons.
  destruct (decide (named name c)) as [Hc|Hc]; unfold named in Hc.
  - by rewrite bool_decide_eq_true_2 by congruence.
  - by rewrite bool_decide_eq_false_2 by congruence.
Qed.

Lemma filter_named_other (name : value) (l : list value) :
  Forall (other_than name) l → filter (named name) l = [].
Proof.
  induction 1 as [|c l [_ Hc] _ IH]; [reflexivity|].
  rewrite filter_cons. by rewrite decide_False by exact Hc.
Qed.

Lemma other_than_has_name (name : value) (l : list value) :
  Forall (other_than name) l → Forall has_name l.
Proof. intros H. eapply Forall_impl; [exact H|]. by intros c [Hc _]. Qed.

Lemma containers_named_split (name : value) (l1 l2 : list value) (cd : dict) :
  Forall (other_than name) l1 →
  cd !! "name" = Some name →
  Forall has_name l2 →
  containers_named name (l1 ++ VDict cd :: l2)
  = Ok (VDict cd :: filter (named name) l2).
Proof.
  intros H1 Hcd H2. rewrite containers_named_filter.
  - rewrite filter_app, (filter_named_other _ _ H1), filter_cons.
    by rewrite decide_True by exact Hcd.
  - apply Forall_app. split; [by eapply other_than_has_name|].
    constructor; [by eexists | done].
Qed.

Lemma list_remove_split (name : value) (l1 l2 : list value) (cd : dict) :
  Forall (other_than name) l1 →
  cd !! "name" = Some name →
  list_remove (VDict cd) (l1 ++ VDict cd :: l2) = Ok (l1 ++ l2).
Proof.
  intros H1 Hcd. induction H1 as [|c l1 [_ Hc] _ IH]; simpl.
  - by rewrite bool_decide_eq_true_2 by reflexivity.
  - rewrite bool_decide_eq_false_2.
    + by rewrite IH.
    + intros ->. by apply Hc.
Qed.

Lemma first_named_split (name c : value) (l rest : list value) :
  Forall has_name l →
  filter (named name) l = c :: rest →
  ∃ l1 cd l2,
    c = VDict cd ∧ l = l1 ++ VDict cd :: l2 ∧
    Forall (other_than name) l1 ∧ cd !! "name" = Some name ∧
    Forall has_name l2 ∧ rest = filter (named name) l2.
Proof.
  induction 1 as [|x l Hx Hl IH]; [discriminate|].
  rewrite filter_cons. destruct (decide (named name x)) as [Hn|Hn].
  - intros [= -> <-]. destruct (named_VDict _ _ Hn) as (cd & -> & Hcd).
    by exists [], cd, l.
  - intros Hf.
    destruct (IH Hf) as (l1 & cd & l2 & -> & -> & H1 & Hcd & H2 & ->).
    exists (x :: l1), cd, l2. repeat split; try done.
    by constructor.
Qed.

(** ** The synthesized container definition *)

Section new_container_definition.
Variable container_definition : dict.
Variables image container_name environment command secrets : value.
Variable include_sidecars : bool.

Let new_container : dict :=
  new_container_definition container_definition image container_name
    environment command secrets include_sidecars.

Ltac new_container_lookup :=
  unfold new_container, new_container_definition; merge_lookup;
  destruct include_sidecars, (truthy environment), (truthy secrets);
  simplify_map_eq;
  try reflexivity;
  match goal with |- context [?d !! ?k] => by destruct (d !! k) end.

Lemma new_container_name : new_container !! "name" = Some container_name.
Proof. new_container_lookup. Qed.

Lemma new_container_image : new_container !! "image" = Some image.
Proof. new_container_lookup. Qed.

Lemma new_container_entryPoint :
  new_container !! "entryPoint" = Some (VList []).
Proof. new_container_lookup. Qed.

Lemma new_container_command :
  new_container !! "command"
  = Some (if truthy command then command else VList []).
Proof. new_container_lookup. Qed.

Lemma new_container_environment :
  new_container !! "environment"
  = if truthy environment then Some environment
    else container_definition !! "environment".
Proof. new_container_lookup. Qed.

Lemma new_container_secrets :
  new_container !! "secrets"
  = if truthy secrets then Some secrets
    else container_definition !! "secrets".
Proof. new_container_lookup. Qed.

Lemma new_container_dependsOn :
  new_container !! "dependsOn"
  = if include_sidecars then container_definition !! "dependsOn"
    else Some (VList []).
Proof. new_container_lookup. Qed.

End new_container_definition.

(** ** The keys kept from the current task definition *)

Lemma lookup_restrict_keys_foldl (d acc : dict) (keys : list string)
    (k : string) :
  foldl (fun acc key =>
           match d !! key with
           | Some v => <[key := v]> acc
           | None => acc
           end) acc keys !! k
  = match d !! k with
    | Some v => if decide (k ∈ keys) then Some v else acc !! k
    | None => acc !! k
    end.
Proof.
  revert acc. induction keys as [|key keys IH]; intros acc; simpl.
  - by destruct (d !! k).
  - rewrite IH. destruct (d !! k) as [v|] eqn:Hk.
    + destruct (decide (k ∈ keys)) as [Hin|Hin].
      * by rewrite decide_True by (by right).
      * destruct (decide (key = k)) as [->|Hne].
        -- rewrite Hk, lookup_insert_eq.
           by rewrite decide_True by (by left).
        -- rewrite decide_False by (by intros [->|?]%elem_of_cons).
           destruct (d !! key); [by rewrite lookup_insert_ne | done].
    + destruct (d !! key) eqn:Hkey; [|done].
      rewrite lookup_insert_ne; [done | congruence].
Qed.

Lemma lookup_restrict_keys (d : dict) (keys : list string) (k : string) :
  restrict_keys keys d !! k = if decide (k ∈ keys) then d !! k else None.
Proof.
  unfold restrict_keys. rewrite lookup_restrict_keys_foldl, lookup_empty.
  destruct (d !! k), (decide (k ∈ keys)); reflexivity.
Qed.

Lemma dom_restrict_keys (d : dict) (keys : list string) :
  dom (restrict_keys keys d) = dom d ∩ list_to_set keys.
Proof.
  apply set_eq. intros k.
  rewrite elem_of_intersection, !elem_of_dom, elem_of_list_to_set,
    lookup_restrict_keys.
  destruct (decide (k ∈ keys)); [tauto|].
  split; [by intros [? ?] | tauto].
Qed.

(** ** The synthesizer *)

Section synthesizer.
Variable w : world.
Variable expected_keys : list string.
Variables family image container_name environment command secrets : value.
Variable current_task_definition : dict.
Variable current_container_name : value.

Hypothesis current_name :
  current_ecs_container_name w = Ok current_container_name.

Let synthesize (include_sidecars : bool) : io dict dict :=
  default_ecs_task_definition w expected_keys family image container_name
    environment command secrets include_sidecars.

(** The result when the first container that carries the current name is
    [container_definition], between [before] and [after]. *)
Lemma default_ecs_task_definition_located (include_sidecars : bool)
    (before after : list value) (container_definition : dict) :
  current_task_definition !! "containerDefinitions"
  = Some (VList (before ++ VDict container_definition :: after)) →
  Forall (other_than current_container_name) before →
  container_definition !! "name" = Some current_container_name →
  Forall has_name after →
  let new_container :=
    new_container_definition container_definition image container_name
      environment command secrets include_sidecars in
  let container_definitions :=
    VList ((if include_sidecars then before ++ after else [])
           ++ [VDict new_container]) in
  synthesize include_sidecars current_task_definition
  = (Ok (<["containerDefinitions" := container_definitions]>
        (<["family" := family]>
        (restrict_keys expected_keys current_task_definition))),
     if include_sidecars
     then <["containerDefinitions" := container_definitions]>
            current_task_definition
     else current_task_definition).
Proof.
  intros Hcds Hbefore Hname Hafter. cbv zeta.
  unfold synthesize, default_ecs_task_definition.
  rewrite current_name. cbn [mbind result_bind getitem]. rewrite Hcds.
  cbn [mbind result_bind iter_value].
  rewrite (containers_named_split _ _ _ _ Hbefore Hname Hafter).
  cbn [mbind result_bind next_iter].
  destruct include_sidecars; [|reflexivity].
  unfold get. rewrite Hcds. cbn [from_option id].
  by rewrite (list_remove_split _ _ _ _ Hbefore Hname).
Qed.

(** The result when no container carries the current name. *)
Lemma default_ecs_task_definition_not_located (include_sidecars : bool)
    (containers : list value) :
  current_task_definition !! "containerDefinitions"
  = Some (VList containers) →
  Forall (other_than current_container_name) containers →
  synthesize include_sidecars current_task_definition
  = (Err StopIteration, current_task_definition).
Proof.
  intros Hcds Hother.
  unfold synthesize, default_ecs_task_definition.
  rewrite current_name. cbn [mbind result_bind getitem]. rewrite Hcds.
  cbn [mbind result_bind iter_value].
  rewrite containers_named_filter by (by eapply other_than_has_name).
  by rewrite (filter_named_other _ _ Hother).
Qed.

End synthesizer.

Lemma getitem_name_inv (c n : value) :
  getitem c "name" = Ok n → name_of c = Some n.
Proof.
  destruct c as [| | | | |d]; try discriminate. simpl.
  destruct (d !! "name"); [by intros [= ->] | discriminate].
Qed.

Lemma containers_named_ok_inv (name : value) (l selected : list value) :
  containers_named name l = Ok selected → Forall has_name l.
Proof.
  revert selected. induction l as [|c l IH]; intros selected; [done|].
  simpl. destruct (getitem c "name") as [n|] eqn:Hn; [|discriminate].
  cbn [mbind result_bind].
  destruct (containers_named name l) as [sel|]; [|discriminate].
  intros _. constructor; [|by eapply IH].
  exists n. by apply getitem_name_inv.
Qed.

(** The hypotheses under which the results of the synthesizer are stated
    are met by every call that returns. *)
Lemma default_ecs_task_definition_ok_inv (w : world)
    (expected_keys : list string)
    (family image container_name environment command secrets : value)
    (include_sidecars : bool) (current_task_definition out : dict) :
  (default_ecs_task_definition w expected_keys family image container_name
     environment command secrets include_sidecars current_task_definition).1
  = Ok out →
  ∃ (current_container_name : value) (before after : list value)
    (container_definition : dict),
    current_ecs_container_name w = Ok current_container_name ∧
    current_task_definition !! "containerDefinitions"
    = Some (VList (before ++ VDict container_definition :: after)) ∧
    Forall (other_than current_container_name) before ∧
    container_definition !! "name" = Some current_container_name ∧
    Forall has_name after.
Proof.
  unfold default_ecs_task_definition.
  destruct (current_ecs_container_name w) as [cur|]; [|discriminate].
  cbn [mbind result_bind getitem].
  destruct (current_task_definition !! "containerDefinitions")
    as [v|] eqn:Hcds; [|discriminate].
  cbn [mbind result_bind].
  destruct (iter_value v) as [l|] eqn:Hiter; [|discriminate].
  cbn [mbind result_bind].
  destruct (containers_named cur l) as [selected|] eqn:Hsel; [|discriminate].
  cbn [mbind result_bind].
  pose proof (containers_named_ok_inv _ _ _ Hsel) as Hnames.
  rewrite (containers_named_filter _ _ Hnames) in Hsel.
  injection Hsel as <-.
  destruct (filter (named cur) l) as [|c rest] eqn:Hfilter; [discriminate|].
  destruct (first_named_split _ _ _ _ Hnames Hfilter)
    as (before & cd & after & -> & -> & Hbefore & Hname & Hafter & _).
  intros _. exists cur, before, after, cd. repeat split; try done.
  destruct v as [| | |s|l|d]; try discriminate.
  - injection Hiter as Hl. destruct s as [|a s]; simpl in Hl.
    + by destruct before.
    + destruct before as [|b before]; simpl in Hl; [discriminate|].
      injection Hl as <- _.
      apply Forall_cons in Hbefore as [[[? Hb] _] _]. discriminate Hb.
  - by injection Hiter as ->.
  - injection Hiter as Hl.
    destruct (map_to_list d) as [|[k x] kvs]; simpl in Hl.
    + by destruct before.
    + destruct before as [|b before]; simpl in Hl; [discriminate|].
      injection Hl as <- _.
      apply Forall_cons in Hbefore as [[[? Hb] _] _]. discriminate Hb.
Qed.

(** Without sidecars the dictionary of the caller is never written to. *)
Lemma default_ecs_task_definition_no_sidecars_frame (w : world)
    (expected_keys : list string)
    (family image container_name environment command secrets : value)
    (current_task_definition : dict) :
  (default_ecs_task_definition w expected_keys family image container_name
     environment command secrets false current_task_definition).2
  = current_task_definition.
Proof.
  unfold default_ecs_task_definition.
  destruct (_ ≫= _) as [[]|]; reflexivity.
Qed.

Lemma synthesized_container_snoc (task_definition : dict)
    (containers : list value) (new_container : dict) :
  synthesized_container
    (<["containerDefinitions" := VList (containers ++ [VDict new_container])]>
       task_definition)
  = Some new_container.
Proof.
  unfold synthesized_container, container_definitions_of.
  by rewrite lookup_insert_eq, last_snoc.
Qed.

(** Decidable facts about the sample inputs are settled by evaluation. *)
Ltac by_evaluation :=
  match goal with
  | |- ?P => apply (@bool_decide_unpack P _); vm_compute; exact I
  end.

(** C2. When every entry of the current container definitions carries a
    name and exactly one of them carries the name of the current container,
    [default_ecs_task_definition] without sidecars returns a document whose
    container definitions are a single entry, named by the requested
    container name, with the requested image, an empty [entryPoint] and an
    empty [dependsOn]. *)
Theorem default_ecs_task_definition_single_container (w : world)
    (expected_keys : list string)
    (family image container_name environment command secrets : value)
    (current_task_definition : dict) (current_container_name : value)
    (containers : list value) :
  current_ecs_container_name w = Ok current_container_name →
  current_task_definition !! "containerDefinitions"
  = Some (VList containers) →
  Forall has_name containers →
  length (filter (named current_container_name) containers) = 1 →
  ∃ (out new_container : dict),
    (default_ecs_task_definition w expected_keys family image container_name
       environment command secrets false current_task_definition).1
    = Ok out ∧
    out !! "containerDefinitions" = Some (VList [VDict new_container]) ∧
    new_container !! "name" = Some container_name ∧
    new_container !! "image" = Some image ∧
    new_container !! "entryPoint" = Some (VList []) ∧
    new_container !! "dependsOn" = Some (VList []).
Proof.
  intros Hcur Hcds Hnames Hone.
  destruct (filter (named current_container_name) containers)
    as [|c rest] eqn:Hfilter; [discriminate|].
  destruct (first_named_split _ _ _ _ Hnames Hfilter)
    as (before & cd & after & -> & -> & Hbefore & Hname & Hafter & _).
  eexists _, _. split; [|split].
  - by erewrite (default_ecs_task_definition_located _ _ _ _ _ _ _ _ _ _
                   Hcur false).
  - by rewrite lookup_insert_eq.
  - repeat split.
    + apply new_container_name.
    + apply new_container_image.
    + apply new_container_entryPoint.
    + apply (new_container_dependsOn _ _ _ _ _ _ false).
Qed.

Lemma default_ecs_task_definition_single_container_witness :
  ∃ (out new_container : dict),
    (default_ecs_task_definition fargate_world register_keys
       (VStr "job-family") (VStr "job:2") (VStr "job") VNone VNone VNone
       false running_task_definition).1
    = Ok out ∧
    out !! "containerDefinitions" = Some (VList [VDict new_container]) ∧
    new_container !! "name" = Some (VStr "job") ∧
    new_container !! "image" = Some (VStr "job:2") ∧
    new_container !! "entryPoint" = Some (VList []) ∧
    new_container !! "dependsOn" = Some (VList []).
Proof.
  apply (default_ecs_task_definition_single_container fargate_world
           register_keys (VStr "job-family") (VStr "job:2") (VStr "job")
           VNone VNone VNone running_task_definition (VStr "run")
           [VDict logs_container; VDict run_container]).
  - reflexivity.
  - reflexivity.
  - by_evaluation.
  - reflexivity.
Defined.

(** C6. When every entry of the current container definitions carries a
    name and none carries the name of the current container,
    [default_ecs_task_definition] raises [StopIteration] (the exception of
    [next] on the empty selection), in both modes, and leaves the current
    task definition as it was. *)
Theorem default_ecs_task_definition_container_not_found (w : world)
    (expected_keys : list string)
    (family image container_name environment command secrets : value)
    (include_sidecars : bool)
    (current_task_definition : dict) (current_container_name : value)
    (containers : list value) :
  current_ecs_container_name w = Ok current_container_name →
  current_task_definition !! "containerDefinitions"
  = Some (VList containers) →
  Forall (other_than current_container_name) containers →
  default_ecs_task_definition w expected_keys family image container_name
    environment command secrets include_sidecars current_task_definition
  = (Err StopIteration, current_task_definition).
Proof.
  intros Hcur Hcds Hother.
  by eapply default_ecs_task_definition_not_located.
Qed.

Lemma default_ecs_task_definition_container_not_found_witness :
  default_ecs_task_definition fargate_world register_keys
    (VStr "job-family") (VStr "job:2") (VStr "job") VNone VNone VNone true
    (<["containerDefinitions" := VList [VDict logs_container]]>
       running_task_definition)
  = (Err StopIteration,
     <["containerDefinitions" := VList [VDict logs_container]]>
       running_task_definition).
Proof.
  apply (default_ecs_task_definition_container_not_found fargate_world
           register_keys (VStr "job-family") (VStr "job:2") (VStr "job")
           VNone VNone VNone true _ (VStr "run") [VDict logs_container]).
  - reflexivity.
  - reflexivity.
  - by_evaluation.
Defined.

(** C3, as stated, fails: with an empty [environment] argument and no
    [secrets] argument, the synthesized container still has the keys
    [environment] and [secrets], with the values of the container of the
    current process. *)
Lemma default_ecs_task_definition_inherits_environment :
  ∃ (out new_container : dict),
    (default_ecs_task_definition fargate_world register_keys
       (VStr "job-family") (VStr "job:2") (VStr "job") (VList []) VNone
       VNone false single_task_definition).1
    = Ok out ∧
    synthesized_container out = Some new_container ∧
    truthy (VList []) = false ∧
    truthy VNone = false ∧
    new_container !! "environment"
    = Some (VList [VDict (<["name" := VStr "STAGE"]>
                         (<["value" := VStr "prod"]> ∅))]) ∧
    new_container !! "secrets"
    = Some (VList [VDict (<["name" := VStr "TOKEN"]>
                         (<["valueFrom" := VStr "arn:secret"]> ∅))]).
Proof.
  eexists _, _. split; [|split].
  - erewrite (default_ecs_task_definition_located fargate_world _ _ _ _ _ _
                _ _ (VStr "run") eq_refl false [] [] run_container);
      [reflexivity | reflexivity | constructor | reflexivity | constructor].
  - apply synthesized_container_snoc.
  - rewrite new_container_environment, new_container_secrets.
    repeat split.
Qed.

(** C3, amended. Let [container_definition] be the first current container
    that carries the name of the current container.  When the [environment]
    argument is truthy (not empty), the synthesized container has the key
    [environment] with exactly the argument; when it is empty or absent,
    the synthesized container has for [environment] what
    [container_definition] has: the inherited value, or no key if there was
    none.  The same holds of [secrets]. *)
Theorem default_ecs_task_definition_environment_secrets (w : world)
    (expected_keys : list string)
    (family image container_name environment command secrets : value)
    (include_sidecars : bool)
    (current_task_definition : dict) (current_container_name : value)
    (before after : list value) (container_definition : dict) :
  current_ecs_container_name w = Ok current_container_name →
  current_task_definition !! "containerDefinitions"
  = Some (VList (before ++ VDict container_definition :: after)) →
  Forall (other_than current_container_name) before →
  container_definition !! "name" = Some current_container_name →
  Forall has_name after →
  ∃ (out new_container : dict),
    (default_ecs_task_definition w expected_keys family image container_name
       environment command secrets include_sidecars
       current_task_definition).1
    = Ok out ∧
    synthesized_container out = Some new_container ∧
    new_container !! "environment"
    = (if truthy environment then Some environment
       else container_definition !! "environment") ∧
    new_container !! "secrets"
    = (if truthy secrets then Some secrets
       else container_definition !! "secrets").
Proof.
  intros Hcur Hcds Hbefore Hname Hafter.
  eexists _, _. split; [|split; [|split]].
  - by erewrite (default_ecs_task_definition_located _ _ _ _ _ _ _ _ _ _
                   Hcur include_sidecars before after container_definition).
  - apply synthesized_container_snoc.
  - apply new_container_environment.
  - apply new_container_secrets.
Qed.

Lemma default_ecs_task_definition_environment_secrets_witness :
  ∃ (out new_container : dict),
    (default_ecs_task_definition fargate_world register_keys
       (VStr "job-family") (VStr "job:2") (VStr "job")
       (VList [VStr "A=1"]) VNone VNone true running_task_definition).1
    = Ok out ∧
    synthesized_container out = Some new_container ∧
    new_container !! "environment" = Some (VList [VStr "A=1"]) ∧
    new_container !! "secrets" = run_container !! "secrets".
Proof.
  apply (default_ecs_task_definition_environment_secrets fargate_world
           register_keys (VStr "job-family") (VStr "job:2") (VStr "job")
           (VList [VStr "A=1"]) VNone VNone true running_task_definition
           (VStr "run") [VDict logs_container] [] run_container).
  - reflexivity.
  - reflexivity.
  - by_evaluation.
  - reflexivity.
  - constructor.
Defined.

(** C5. With sidecars, when [container_definition] is the first current
    container that carries the name of the current container, the container
    definitions of the result are the current ones without
    [container_definition], in their order, followed by the synthesized
    container; they are as many as the current ones; and the synthesized
    container has for [dependsOn] what [container_definition] has. *)
Theorem default_ecs_task_definition_sidecars (w : world)
    (expected_keys : list string)
    (family image container_name environment command secrets : value)
    (current_task_definition : dict) (current_container_name : value)
    (before after : list value) (container_definition : dict) :
  current_ecs_container_name w = Ok current_container_name →
  current_task_definition !! "containerDefinitions"
  = Some (VList (before ++ VDict container_definition :: after)) →
  Forall (other_than current_container_name) before →
  container_definition !! "name" = Some current_container_name →
  Forall has_name after →
  ∃ (out new_container : dict),
    (default_ecs_task_definition w expected_keys family image container_name
       environment command secrets true current_task_definition).1
    = Ok out ∧
    new_container
    = new_container_definition container_definition image container_name
        environment command secrets true ∧
    container_definitions_of out
    = before ++ after ++ [VDict new_container] ∧
    length (container_definitions_of out)
    = length (container_definitions_of current_task_definition) ∧
    new_container !! "name" = Some container_name ∧
    new_container !! "dependsOn" = container_definition !! "dependsOn".
Proof.
  intros Hcur Hcds Hbefore Hname Hafter.
  eexists _, _. split; [|split; [reflexivity|]].
  - by erewrite (default_ecs_task_definition_located _ _ _ _ _ _ _ _ _ _
                   Hcur true before after container_definition).
  - unfold container_definitions_of. rewrite lookup_insert_eq, Hcds.
    repeat split.
    + by rewrite <- app_assoc.
    + rewrite !length_app. simpl. lia.
    + apply new_container_name.
    + apply (new_container_dependsOn _ _ _ _ _ _ true).
Qed.

Lemma default_ecs_task_definition_sidecars_witness :
  ∃ (out new_container : dict),
    (default_ecs_task_definition fargate_world register_keys
       (VStr "job-family") (VStr "job:2") (VStr "job") VNone VNone VNone
       true running_task_definition).1
    = Ok out ∧
    new_container
    = new_container_definition run_container (VStr "job:2") (VStr "job")
        VNone VNone VNone true ∧
    container_definitions_of out
    = [VDict logs_container] ++ [] ++ [VDict new_container] ∧
    length (container_definitions_of out)
    = length (container_definitions_of running_task_definition) ∧
    new_container !! "name" = Some (VStr "job") ∧
    new_container !! "dependsOn" = run_container !! "dependsOn".
Proof.
  apply (default_ecs_task_definition_sidecars fargate_world
           register_keys (VStr "job-family") (VStr "job:2") (VStr "job")
           VNone VNone VNone running_task_definition
           (VStr "run") [VDict logs_container] [] run_container).
  - reflexivity.
  - reflexivity.
  - by_evaluation.
  - reflexivity.
  - constructor.
Defined.

(** C7. When [default_ecs_task_definition] locates the container of the
    current process, the keys of the document it returns are exactly the
    keys of the current task definition that are among the accepted
    registration keys, together with [family] and [containerDefinitions];
    these two hold the requested family and the new container definitions,
    every other accepted key holds what the current task definition holds,
    and no other key outside the accepted ones appears. *)
Theorem default_ecs_task_definition_keys (w : world)
    (expected_keys : list string)
    (family image container_name environment command secrets : value)
    (include_sidecars : bool)
    (current_task_definition : dict) (current_container_name : value)
    (before after : list value) (container_definition : dict) :
  current_ecs_container_name w = Ok current_container_name →
  current_task_definition !! "containerDefinitions"
  = Some (VList (before ++ VDict container_definition :: after)) →
  Forall (other_than current_container_name) before →
  container_definition !! "name" = Some current_container_name →
  Forall has_name after →
  ∃ out : dict,
    (default_ecs_task_definition w expected_keys family image container_name
       environment command secrets include_sidecars
       current_task_definition).1
    = Ok out ∧
    dom out
    = (dom current_task_definition ∩ list_to_set expected_keys)
      ∪ {[ "family"; "containerDefinitions" ]} ∧
    out !! "family" = Some family ∧
    out !! "containerDefinitions"
    = Some (VList ((if include_sidecars then before ++ after else [])
                   ++ [VDict (new_container_definition container_definition
                                image container_name environment command
                                secrets include_sidecars)])) ∧
    (∀ k, k ∈ expected_keys → k ≠ "family" → k ≠ "containerDefinitions" →
          out !! k = current_task_definition !! k) ∧
    (∀ k, k ∉ expected_keys → k ≠ "family" → k ≠ "containerDefinitions" →
          out !! k = None).
Proof.
  intros Hcur Hcds Hbefore Hname Hafter.
  eexists. split.
  - by erewrite (default_ecs_task_definition_located _ _ _ _ _ _ _ _ _ _
                   Hcur include_sidecars before after container_definition).
  - repeat split.
    + rewrite !dom_insert_L, dom_restrict_keys.
      apply set_eq. intros k. set_unfold. tauto.
    + by rewrite lookup_insert_ne, lookup_insert_eq.
    + by rewrite lookup_insert_eq.
    + intros k Hin Hfam Hcd.
      rewrite !lookup_insert_ne, lookup_restrict_keys by done.
      by rewrite decide_True.
    + intros k Hin Hfam Hcd.
      rewrite !lookup_insert_ne, lookup_restrict_keys by done.
      by rewrite decide_False.
Qed.

Lemma default_ecs_task_definition_keys_witness :
  ∃ out : dict,
    (default_ecs_task_definition fargate_world register_keys
       (VStr "job-family") (VStr "job:2") (VStr "job") VNone VNone VNone
       false running_task_definition).1
    = Ok out ∧
    dom out = {[ "cpu"; "family"; "containerDefinitions" ]} ∧
    out !! "family" = Some (VStr "job-family") ∧
    out !! "cpu" = Some (VStr "256") ∧
    out !! "revision" = None ∧
    out !! "status" = None.
Proof.
  destruct (default_ecs_task_definition_keys fargate_world
              register_keys (VStr "job-family") (VStr "job:2") (VStr "job")
              VNone VNone VNone false running_task_definition
              (VStr "run") [VDict logs_container] [] run_container)
    as (out & Hout & Hdom & Hfamily & _ & Hkept & Hdropped).
  - reflexivity.
  - reflexivity.
  - by_evaluation.
  - reflexivity.
  - constructor.
  - exists out. repeat split.
    + exact Hout.
    + rewrite Hdom. by_evaluation.
    + exact Hfamily.
    + rewrite Hkept; [reflexivity | by_evaluation | done | done].
    + apply Hdropped; [by_evaluation | done | done].
    + apply Hdropped; [by_evaluation | done | done].
Defined.

(** C4, evaluated with sidecars on the running task definition: the call
    succeeds, the list of container definitions the caller passed holds
    afterwards the synthesized container in place of the container of the
    current process, so that the caller's dictionary has changed, and the
    same call on the same dictionary now raises [StopIteration]. *)
Theorem default_ecs_task_definition_sidecars_mutates_input :
  ∃ (out after_call : dict),
    default_ecs_task_definition fargate_world register_keys
      (VStr "job-family") (VStr "job:2") (VStr "job") VNone VNone VNone
      true running_task_definition
    = (Ok out, after_call) ∧
    container_definitions_of running_task_definition
    = [VDict logs_container; VDict run_container] ∧
    container_definitions_of after_call
    = [VDict logs_container;
       VDict (new_container_definition run_container (VStr "job:2")
                (VStr "job") VNone VNone VNone true)] ∧
    after_call ≠ running_task_definition ∧
    default_ecs_task_definition fargate_world register_keys
      (VStr "job-family") (VStr "job:2") (VStr "job") VNone VNone VNone
      true after_call
    = (Err StopIteration, after_call).
Proof.
  eexists _, _. split; [|split; [|split; [|split]]].
  - by erewrite (default_ecs_task_definition_located fargate_world _ _ _ _
                   _ _ _ _ (VStr "run") eq_refl true [VDict logs_container]
                   [] run_container);
      [| reflexivity | by_evaluation | reflexivity | constructor].
  - reflexivity.
  - unfold container_definitions_of. by rewrite lookup_insert_eq.
  - intros Heq.
    apply (f_equal (fun d => synthesized_container d ≫= (.!! "name"))) in Heq.
    rewrite synthesized_container_snoc in Heq. vm_compute in Heq.
    discriminate.
  - eapply (default_ecs_task_definition_not_located fargate_world _ _ _ _ _
              _ _ _ (VStr "run") eq_refl true).
    + apply lookup_insert_eq.
    + by_evaluation.
Qed.

(** ** The metadata resolver *)

(** C9, as stated, fails: the task endpoint answers with an object that
    has neither [Cluster] nor [TaskARN], and [current_ecs_task_metadata]
    returns an identity whose two fields are [None]. *)
Lemma current_ecs_task_metadata_tolerates_missing_fields :
  environ bare_world !! "ECS_CONTAINER_METADATA_URI_V4" = Some metadata_uri ∧
  http_json bare_world (metadata_uri +:+ "/task") = Ok (VDict ∅) ∧
  current_ecs_task_metadata bare_world
  = Ok (CurrentEcsTaskMetadata.mk VNone VNone).
Proof. repeat split. Qed.

(** C9, amended. When the environment variable of the metadata address is
    unset, [current_ecs_task_metadata] raises [TypeError] and
    [current_ecs_container_name] raises the [MissingSchema] of [requests].
    When the container endpoint answers with an object without [Name],
    [current_ecs_container_name] raises [KeyError].  When the task endpoint
    answers with an object, [current_ecs_task_metadata] does not fail: it
    returns what the object has for [Cluster] and [TaskARN], and [None]
    for one that is absent. *)
Theorem metadata_resolver_failures (w : world) :
  (environ w !! "ECS_CONTAINER_METADATA_URI_V4" = None →
   current_ecs_task_metadata w = Err TypeError ∧
   current_ecs_container_name w = Err MissingSchema) ∧
  (∀ (uri : string) (d : dict),
     environ w !! "ECS_CONTAINER_METADATA_URI_V4" = Some uri →
     http_json w uri = Ok (VDict d) →
     d !! "Name" = None →
     current_ecs_container_name w = Err KeyError) ∧
  (∀ (uri : string) (d : dict),
     environ w !! "ECS_CONTAINER_METADATA_URI_V4" = Some uri →
     http_json w (uri +:+ "/task") = Ok (VDict d) →
     current_ecs_task_metadata w
     = Ok (CurrentEcsTaskMetadata.mk (default VNone (d !! "Cluster"))
                                     (default VNone (d !! "TaskARN")))).
Proof.
  split; [|split].
  - intros Hunset. split.
    + by apply current_ecs_task_metadata_unset.
    + by apply current_ecs_container_name_unset.
  - intros uri d Hset Hget Hname.
    rewrite (current_ecs_container_name_object w uri d Hset Hget).
    by rewrite Hname.
  - intros uri d Hset Hget.
    apply (current_ecs_task_metadata_object w uri d Hset Hget).
Qed.

Lemma metadata_resolver_failures_witness :
  (current_ecs_task_metadata local_world = Err TypeError ∧
   current_ecs_container_name local_world = Err MissingSchema) ∧
  current_ecs_container_name bare_world = Err KeyError ∧
  current_ecs_task_metadata fargate_world
  = Ok (CurrentEcsTaskMetadata.mk (VStr "arn:cluster") (VStr "arn:task")).
Proof.
  split; [|split].
  - apply (proj1 (metadata_resolver_failures local_world)). reflexivity.
  - apply (proj1 (proj2 (metadata_resolver_failures bare_world))
             metadata_uri ∅); reflexivity.
  - exact (proj2 (proj2 (metadata_resolver_failures fargate_world))
             metadata_uri
             (<["Cluster" := VStr "arn:cluster"]>
             (<["TaskARN" := VStr "arn:task"]> ∅)) eq_refl eq_refl).
Defined.

(** ** The projector *)

Lemma init_missing_command (kwargs : dict) :
  kwargs !! "command" = None →
  DagsterEcsTaskConfig.init kwargs = Err TypeError.
Proof.
  intros Hmissing. unfold DagsterEcsTaskConfig.init.
  case_bool_decide; [|reflexivity].
  unfold DagsterEcsTaskConfig.arg. rewrite Hmissing.
  destruct (kwargs !! "image"); [|reflexivity].
  destruct (kwargs !! "container_name"); reflexivity.
Qed.

(** The constructor is called without [command] and [log_configuration],
    which the dataclass requires: no input makes the projector return. *)
Lemma current_ecs_task_config_never_returns
    (ec2 : value → NetworkInterface) (cluster task : value)
    (task_definition : dict)
    (environment secrets container_name image : value) :
  is_err (current_ecs_task_config ec2 cluster task task_definition
            environment secrets container_name image).
Proof.
  unfold current_ecs_task_config.
  destruct (getitem task "attachments") as [attachments|];
    cbn [mbind result_bind]; [|exact I].
  destruct (iter_value attachments) as [l|];
    cbn [mbind result_bind]; [|exact I].
  destruct (scan_attachments ec2 l ([], [])) as [found|];
    cbn [mbind result_bind]; [|exact I].
  destruct (scan_enis found.1 (false, [])) as [inspected|];
    cbn [mbind result_bind]; [|exact I].
  destruct (getitem (VDict task_definition) "family") as [family|];
    cbn [mbind result_bind]; [|exact I].
  by rewrite init_missing_command.
Qed.

Lemma scan_groups_ok (l acc r : list value) :
  scan_groups l acc = Ok r →
  r = acc ++ omap (fun g => match g with
                            | VDict d => d !! "GroupId"
                            | _ => None
                            end) l.
Proof.
  revert acc. induction l as [|g l IH]; intros acc; simpl.
  - intros [= <-]. by rewrite app_nil_r.
  - destruct g as [| | | | |d]; try discriminate. simpl.
    destruct (d !! "GroupId") as [id|]; [|discriminate]. simpl.
    intros Hr. rewrite (IH _ Hr). by rewrite <- app_assoc.
Qed.

Lemma scan_groups_eni_ok (eni : NetworkInterface) (l acc r : list value) :
  iter_value (groups eni) = Ok l →
  scan_groups l acc = Ok r →
  r = acc ++ group_ids eni.
Proof.
  unfold group_ids. destruct (groups eni) as [| | |s|l'|d]; try discriminate.
  - destruct s; simpl; intros [= <-]; [|discriminate].
    simpl. intros [= <-]. by rewrite app_nil_r.
  - intros [= <-]. apply scan_groups_ok.
  - simpl. intros [= <-]. destruct (map_to_list d) as [|[k v] kvs]; simpl.
    + intros [= <-]. by rewrite app_nil_r.
    + discriminate.
Qed.

(** The loop over the interfaces, whenever it completes: the flag is set if
    and only if some interface reports a public address, and the security
    groups are those of all the interfaces, in order. *)
Lemma scan_enis_ok (enis : list NetworkInterface) :
  ∀ (acc r : bool * list value),
    scan_enis enis acc = Ok r →
    r.1 = acc.1 || existsb reports_public_ip enis ∧
    r.2 = acc.2 ++ concat (group_ids <$> enis).
Proof.
  induction enis as [|eni enis IH]; intros acc r; simpl.
  - intros [= <-]. by rewrite orb_false_r, app_nil_r.
  - destruct (dict_get _ "PublicIp") as [ip|] eqn:Hip; [|discriminate].
    cbn [mbind result_bind].
    destruct (iter_value (groups eni)) as [l|] eqn:Hl; [|discriminate].
    cbn [mbind result_bind].
    destruct (scan_groups l acc.2) as [sg|] eqn:Hsg; [|discriminate].
    cbn [mbind result_bind]. intros Hr.
    destruct (IH _ _ Hr) as [-> ->]. simpl.
    rewrite (scan_groups_eni_ok _ _ _ _ Hl Hsg), <- app_assoc.
    split; [|reflexivity].
    assert (truthy ip = reports_public_ip eni) as ->.
    { unfold reports_public_ip. revert Hip.
      destruct (association_attribute eni) as [|b|z|s|l0|d]; simpl.
      - by intros [= <-].
      - destruct b; simpl; [discriminate | by intros [= <-]].
      - destruct (negb _); simpl; [discriminate | by intros [= <-]].
      - destruct s; simpl; [by intros [= <-] | discriminate].
      - destruct l0; simpl; [by intros [= <-] | discriminate].
      - destruct (negb _) eqn:Hd; simpl; intros [= <-]; [done|].
        apply negb_false_iff, bool_decide_eq_true in Hd.
        apply dom_empty_inv_L in Hd as ->. reflexivity. }
    by destruct (reports_public_ip eni), acc.1.
Qed.

(** C8, evaluated on an observed task with two network interface
    attachments and one attachment of another kind: the loops collect the
    subnets and the interfaces of the two network interface attachments
    only, find a public address and both security groups, and then the
    call of the constructor raises [TypeError], so that no configuration
    results. *)
Theorem current_ecs_task_config_raises_TypeError :
  scan_attachments sample_ec2 observed_attachments ([], [])
  = Ok ([sample_ec2 (VStr "eni-1"); sample_ec2 (VStr "eni-2")],
        [VStr "subnet-1"; VStr "subnet-2"]) ∧
  scan_enis [sample_ec2 (VStr "eni-1"); sample_ec2 (VStr "eni-2")]
    (false, [])
  = Ok (true, [VStr "g1"; VStr "g2"]) ∧
  current_ecs_task_config sample_ec2 (VStr "arn:cluster") observed_task
    observed_task_definition VNone VNone (VStr "run") (VStr "dagster:1")
  = Err TypeError.
Proof. repeat split. Qed.

(** * Further properties *)

(** Splits a conjunction into its parts, and nothing else. *)
Ltac conjuncts := repeat match goal with |- _ ∧ _ => split end.

(** ** One call of [describe_task_or_raise] *)

(** X1. One call of [describe_task_or_raise] makes exactly one call of
    [describe_tasks].  It returns the first task of the answer, whatever
    follows it; an answer with an empty task list raises
    [EcsNoTasksFound]; an answer without the key [tasks] raises [KeyError]
    (which is not the exception that is retried); an [IndexError] raised by
    the client itself is turned into [EcsNoTasksFound] as well; every other
    exception of the client is raised unchanged. *)
Theorem describe_task_or_raise_outcomes (ecs : ecs_client) (n : nat) :
  (describe_task_or_raise ecs n).2 = S n ∧
  (∀ (d : dict) (task : value) (others : list value),
     ecs n = Ok (VDict d) → d !! "tasks" = Some (VList (task :: others)) →
     describe_outcome ecs n = Ok task) ∧
  (∀ d : dict,
     ecs n = Ok (VDict d) → d !! "tasks" = Some (VList []) →
     describe_outcome ecs n = Err EcsNoTasksFound) ∧
  (∀ d : dict,
     ecs n = Ok (VDict d) → d !! "tasks" = None →
     describe_outcome ecs n = Err KeyError) ∧
  (ecs n = Err IndexError → describe_outcome ecs n = Err EcsNoTasksFound) ∧
  (∀ e : exn,
     e ≠ IndexError → ecs n = Err e → describe_outcome ecs n = Err e).
Proof.
  unfold describe_outcome, describe_task_or_raise. cbn [fst snd].
  repeat split.
  - intros d task others -> Hd. cbn [mbind result_bind getitem].
    by rewrite Hd.
  - intros d -> Hd. cbn [mbind result_bind getitem]. by rewrite Hd.
  - intros d -> Hd. cbn [mbind result_bind getitem]. by rewrite Hd.
  - by intros ->.
  - intros e Hne ->. cbn [mbind result_bind]. by destruct e.
Qed.

Lemma describe_task_or_raise_outcomes_witness :
  describe_outcome ecs_two_tasks 0 = Ok (VStr "arn:a") ∧
  describe_outcome ecs_never 0 = Err EcsNoTasksFound ∧
  describe_outcome ecs_no_key 0 = Err KeyError ∧
  describe_outcome ecs_index_error 0 = Err EcsNoTasksFound ∧
  describe_outcome ecs_denied 0 = Err (External "AccessDeniedException").
Proof.
  conjuncts.
  - exact (proj1 (proj2 (describe_task_or_raise_outcomes ecs_two_tasks 0))
             _ _ _ eq_refl eq_refl).
  - exact (proj1 (proj2 (proj2
             (describe_task_or_raise_outcomes ecs_never 0)))
             _ eq_refl eq_refl).
  - exact (proj1 (proj2 (proj2 (proj2
             (describe_task_or_raise_outcomes ecs_no_key 0))))
             _ eq_refl eq_refl).
  - exact (proj1 (proj2 (proj2 (proj2 (proj2
             (describe_task_or_raise_outcomes ecs_index_error 0)))))
             eq_refl).
  - apply (proj2 (proj2 (proj2 (proj2 (proj2
             (describe_task_or_raise_outcomes ecs_denied 0)))))).
    + discriminate.
    + reflexivity.
Defined.

(** X2. [current_ecs_task] never lets [EcsNoTasksFound] out: whatever
    [backoff] ends with, an [EcsNoTasksFound] is replaced by
    [EcsEventualConsistencyTimeout]. *)
Theorem current_ecs_task_hides_EcsNoTasksFound (ecs : ecs_client) (n : nat)
    (e : exn) :
  (current_ecs_task ecs n).1 = Err e → e ≠ EcsNoTasksFound.
Proof.
  unfold current_ecs_task.
  destruct (backoff _ _ _ n) as [[v|e'] n']; [discriminate|].
  destruct e'; cbn [fst]; intros [= <-]; discriminate.
Qed.

Lemma current_ecs_task_hides_EcsNoTasksFound_witness :
  (current_ecs_task ecs_never 0).1 = Err EcsEventualConsistencyTimeout ∧
  EcsEventualConsistencyTimeout ≠ EcsNoTasksFound.
Proof.
  split; [reflexivity|].
  exact (current_ecs_task_hides_EcsNoTasksFound ecs_never 0 _ eq_refl).
Defined.

(** ** The metadata endpoint, when it does not answer with an object *)

(** X3. With the metadata address set to [uri], [current_ecs_task_metadata]
    queries [uri + "/task"]: an exception of that request is raised
    unchanged, and an answer that is not a JSON object raises
    [AttributeError]. *)
Theorem current_ecs_task_metadata_errors (w : world) (uri : string) :
  environ w !! "ECS_CONTAINER_METADATA_URI_V4" = Some uri →
  (∀ e : exn,
     http_json w (uri +:+ "/task") = Err e →
     current_ecs_task_metadata w = Err e) ∧
  (∀ v : value,
     http_json w (uri +:+ "/task") = Ok v →
     is_object v = false →
     current_ecs_task_metadata w = Err AttributeError).
Proof.
  intros Hset. unfold current_ecs_task_metadata, _container_metadata_uri.
  rewrite Hset. cbn [mbind result_bind requests_get_json]. split.
  - by intros e ->.
  - intros v -> Hv. by destruct v.
Qed.

Lemma current_ecs_task_metadata_errors_witness :
  current_ecs_task_metadata unreachable_world
  = Err (External "ConnectionError") ∧
  current_ecs_task_metadata list_world = Err AttributeError.
Proof.
  split.
  - exact (proj1 (current_ecs_task_metadata_errors unreachable_world
                    metadata_uri eq_refl) _ eq_refl).
  - exact (proj2 (current_ecs_task_metadata_errors list_world
                    metadata_uri eq_refl) _ eq_refl eq_refl).
Defined.

(** X4. With the metadata address set to [uri], [current_ecs_container_name]
    queries [uri] itself and returns what the answer has for [Name]; an
    exception of the request is raised unchanged, and an answer that is
    not a JSON object raises [TypeError]. *)
Theorem current_ecs_container_name_outcomes (w : world) (uri : string) :
  environ w !! "ECS_CONTAINER_METADATA_URI_V4" = Some uri →
  (∀ (d : dict) (name : value),
     http_json w uri = Ok (VDict d) → d !! "Name" = Some name →
     current_ecs_container_name w = Ok name) ∧
  (∀ e : exn,
     http_json w uri = Err e → current_ecs_container_name w = Err e) ∧
  (∀ v : value,
     http_json w uri = Ok v → is_object v = false →
     current_ecs_container_name w = Err TypeError).
Proof.
  intros Hset. unfold current_ecs_container_name, _container_metadata_uri.
  rewrite Hset. cbn [mbind result_bind requests_get_json]. repeat split.
  - intros d name -> Hname. cbn [mbind result_bind getitem].
    by rewrite Hname.
  - by intros e ->.
  - intros v -> Hv. by destruct v.
Qed.

Lemma current_ecs_container_name_outcomes_witness :
  current_ecs_container_name fargate_world = Ok (VStr "run") ∧
  current_ecs_container_name unreachable_world
  = Err (External "ConnectionError") ∧
  current_ecs_container_name list_world = Err TypeError.
Proof.
  conjuncts.
  - exact (proj1 (current_ecs_container_name_outcomes fargate_world
                    metadata_uri eq_refl) _ _ eq_refl eq_refl).
  - exact (proj1 (proj2 (current_ecs_container_name_outcomes
                    unreachable_world metadata_uri eq_refl)) _ eq_refl).
  - exact (proj2 (proj2 (current_ecs_container_name_outcomes list_world
                    metadata_uri eq_refl)) _ eq_refl eq_refl).
Defined.

(** ** The synthesizer: failures and the dictionary of the caller *)

Lemma containers_named_error (name c : value) (e : exn)
    (l1 l2 : list value) :
  Forall has_name l1 →
  getitem c "name" = Err e →
  containers_named name (l1 ++ c :: l2) = Err e.
Proof.
  intros Hl1 Hc. induction Hl1 as [|x l1 [n Hn] _ IH]; simpl.
  - by rewrite Hc.
  - rewrite (getitem_name_of _ _ Hn). cbn [mbind result_bind].
    by rewrite IH.
Qed.

(** X5. The failures of [default_ecs_task_definition] come in the order of
    the code, and each leaves the current task definition as it was: an
    exception of the lookup of the current container name is raised first,
    whatever the task definition holds; then a task definition without
    [containerDefinitions] raises [KeyError]; then a container definition
    without [name] raises [KeyError] as soon as the containers before it
    all have one, even when one of them carries the current name. *)
Theorem default_ecs_task_definition_error_order (w : world)
    (expected_keys : list string)
    (family image container_name environment command secrets : value)
    (include_sidecars : bool) (current_task_definition : dict) :
  let synthesize :=
    default_ecs_task_definition w expected_keys family image container_name
      environment command secrets include_sidecars in
  (∀ e : exn,
     current_ecs_container_name w = Err e →
     synthesize current_task_definition = (Err e, current_task_definition)) ∧
  (∀ current_container_name : value,
     current_ecs_container_name w = Ok current_container_name →
     current_task_definition !! "containerDefinitions" = None →
     synthesize current_task_definition
     = (Err KeyError, current_task_definition)) ∧
  (∀ (current_container_name : value) (before after : list value)
     (nameless : dict),
     current_ecs_container_name w = Ok current_container_name →
     current_task_definition !! "containerDefinitions"
     = Some (VList (before ++ VDict nameless :: after)) →
     Forall has_name before →
     nameless !! "name" = None →
     synthesize current_task_definition
     = (Err KeyError, current_task_definition)).
Proof.
  cbv zeta. unfold default_ecs_task_definition. conjuncts.
  - by intros e ->.
  - intros cur -> Hcds. cbn [mbind result_bind getitem]. by rewrite Hcds.
  - intros cur before after nameless -> Hcds Hbefore Hname.
    cbn [mbind result_bind getitem]. rewrite Hcds.
    cbn [mbind result_bind iter_value].
    rewrite (containers_named_error _ (VDict nameless) KeyError);
      [reflexivity | assumption | by simpl; rewrite Hname].
Qed.

Lemma default_ecs_task_definition_error_order_witness :
  default_ecs_task_definition unreachable_world register_keys
    (VStr "job-family") (VStr "job:2") (VStr "job") VNone VNone VNone true ∅
  = (Err (External "ConnectionError"), ∅) ∧
  default_ecs_task_definition fargate_world register_keys
    (VStr "job-family") (VStr "job:2") (VStr "job") VNone VNone VNone true ∅
  = (Err KeyError, ∅) ∧
  default_ecs_task_definition fargate_world register_keys
    (VStr "job-family") (VStr "job:2") (VStr "job") VNone VNone VNone true
    {[ "containerDefinitions" :=
         VList [VDict run_container; VDict nameless_container] ]}
  = (Err KeyError,
     {[ "containerDefinitions" :=
          VList [VDict run_container; VDict nameless_container] ]}).
Proof.
  conjuncts.
  - exact (proj1 (default_ecs_task_definition_error_order unreachable_world
             register_keys (VStr "job-family") (VStr "job:2") (VStr "job")
             VNone VNone VNone true ∅) _ eq_refl).
  - exact (proj1 (proj2 (default_ecs_task_definition_error_order
             fargate_world register_keys (VStr "job-family") (VStr "job:2")
             (VStr "job") VNone VNone VNone true ∅)) _ eq_refl eq_refl).
  - apply (proj2 (proj2 (default_ecs_task_definition_error_order
             fargate_world register_keys (VStr "job-family") (VStr "job:2")
             (VStr "job") VNone VNone VNone true
             {[ "containerDefinitions" :=
                  VList [VDict run_container; VDict nameless_container] ]}))
             (VStr "run") [VDict run_container] [] nameless_container).
    + reflexivity.
    + reflexivity.
    + by_evaluation.
    + reflexivity.
Defined.

(** X6. [default_ecs_task_definition] writes to the current task definition
    only in a call with sidecars that returns: without sidecars, and in
    every call that raises, the dictionary of the caller is left as it
    was. *)
Theorem default_ecs_task_definition_frame (w : world)
    (expected_keys : list string)
    (family image container_name environment command secrets : value)
    (include_sidecars : bool) (current_task_definition : dict) :
  include_sidecars = false ∨
  is_err (default_ecs_task_definition w expected_keys family image
            container_name environment command secrets include_sidecars
            current_task_definition).1 →
  (default_ecs_task_definition w expected_keys family image container_name
     environment command secrets include_sidecars current_task_definition).2
  = current_task_definition.
Proof.
  intros [-> | Herr].
  - apply default_ecs_task_definition_no_sidecars_frame.
  - revert Herr. unfold default_ecs_task_definition.
    destruct (_ ≫= _) as [[| | | | |cd]|]; try reflexivity.
    destruct include_sidecars; [|reflexivity].
    destruct (get current_task_definition "containerDefinitions");
      try reflexivity.
    destruct (list_remove _ _); [|reflexivity].
    by intros [].
Qed.

Lemma default_ecs_task_definition_frame_witness :
  (default_ecs_task_definition fargate_world register_keys
     (VStr "job-family") (VStr "job:2") (VStr "job") VNone VNone VNone
     false running_task_definition).2
  = running_task_definition.
Proof.
  apply (default_ecs_task_definition_frame fargate_world register_keys
           (VStr "job-family") (VStr "job:2") (VStr "job") VNone VNone
           VNone false running_task_definition).
  left. reflexivity.
Defined.

(** ** The synthesizer with sidecars: what the caller's dictionary holds *)

(** X7. When a call with sidecars returns, the current task definition of
    the caller holds afterwards, under [containerDefinitions], the very
    container definitions of the result, and is otherwise as it was. *)
Theorem default_ecs_task_definition_sidecars_alias (w : world)
    (expected_keys : list string)
    (family image container_name environment command secrets : value)
    (current_task_definition out after_call : dict) :
  default_ecs_task_definition w expected_keys family image container_name
    environment command secrets true current_task_definition
  = (Ok out, after_call) →
  after_call
  = <["containerDefinitions" := VList (container_definitions_of out)]>
      current_task_definition ∧
  after_call !! "containerDefinitions" = out !! "containerDefinitions".
Proof.
  intros Hcall.
  destruct (default_ecs_task_definition_ok_inv w expected_keys family image
              container_name environment command secrets true
              current_task_definition out)
    as (cur & before & after & cd & Hcur & Hcds & Hbefore & Hname & Hafter).
  { by rewrite Hcall. }
  rewrite (default_ecs_task_definition_located _ _ _ _ _ _ _ _ _ _ Hcur
             true before after cd Hcds Hbefore Hname Hafter) in Hcall.
  injection Hcall as <- <-.
  unfold container_definitions_of. by rewrite !lookup_insert_eq.
Qed.

Lemma default_ecs_task_definition_sidecars_alias_witness :
  ∃ out after_call : dict,
    default_ecs_task_definition fargate_world register_keys
      (VStr "job-family") (VStr "job:2") (VStr "job") VNone VNone VNone
      true running_task_definition
    = (Ok out, after_call) ∧
    after_call
    = <["containerDefinitions" := VList (container_definitions_of out)]>
        running_task_definition ∧
    after_call !! "containerDefinitions" = out !! "containerDefinitions".
Proof.
  eexists _, _. split; [vm_compute; reflexivity|].
  apply (default_ecs_task_definition_sidecars_alias fargate_world
           register_keys (VStr "job-family") (VStr "job:2") (VStr "job")
           VNone VNone VNone running_task_definition).
  vm_compute. reflexivity.
Defined.

(** X8. After a call with sidecars has replaced the only container that
    carries the current name by one of another name, the same call on the
    same dictionary raises [StopIteration]: the container of the current
    process is no longer there. *)
Theorem default_ecs_task_definition_sidecars_twice (w : world)
    (expected_keys : list string)
    (family image container_name environment command secrets : value)
    (current_task_definition : dict) (current_container_name : value)
    (before after : list value) (container_definition : dict) :
  current_ecs_container_name w = Ok current_container_name →
  current_task_definition !! "containerDefinitions"
  = Some (VList (before ++ VDict container_definition :: after)) →
  Forall (other_than current_container_name) before →
  container_definition !! "name" = Some current_container_name →
  Forall (other_than current_container_name) after →
  container_name ≠ current_container_name →
  ∃ out after_call : dict,
    default_ecs_task_definition w expected_keys family image container_name
      environment command secrets true current_task_definition
    = (Ok out, after_call) ∧
    default_ecs_task_definition w expected_keys family image container_name
      environment command secrets true after_call
    = (Err StopIteration, after_call).
Proof.
  intros Hcur Hcds Hbefore Hname Hafter Hne.
  eexists _, _. split.
  - apply (default_ecs_task_definition_located _ _ _ _ _ _ _ _ _ _ Hcur
             true before after container_definition Hcds Hbefore Hname).
    by eapply other_than_has_name.
  - eapply (default_ecs_task_definition_not_located _ _ _ _ _ _ _ _ _ _
              Hcur true).
    + apply lookup_insert_eq.
    + rewrite !Forall_app. repeat split; try assumption.
      constructor; [|constructor]. split.
      * exists container_name. apply new_container_name.
      * unfold named. cbn [name_of]. rewrite new_container_name. congruence.
Qed.

Lemma default_ecs_task_definition_sidecars_twice_witness :
  ∃ out after_call : dict,
    default_ecs_task_definition fargate_world register_keys
      (VStr "job-family") (VStr "job:2") (VStr "job") VNone VNone VNone
      true running_task_definition
    = (Ok out, after_call) ∧
    default_ecs_task_definition fargate_world register_keys
      (VStr "job-family") (VStr "job:2") (VStr "job") VNone VNone VNone
      true after_call
    = (Err StopIteration, after_call).
Proof.
  apply (default_ecs_task_definition_sidecars_twice fargate_world
           register_keys (VStr "job-family") (VStr "job:2") (VStr "job")
           VNone VNone VNone running_task_definition (VStr "run")
           [VDict logs_container] [] run_container).
  - reflexivity.
  - reflexivity.
  - by_evaluation.
  - reflexivity.
  - constructor.
  - discriminate.
Defined.

(** ** What the synthesized container inherits *)

Lemma lookup_new_container_definition_inherited (container_definition : dict)
    (image container_name environment command secrets : value)
    (include_sidecars : bool) (k : string) :
  k ∉ overridden_keys →
  new_container_definition container_definition image container_name
    environment command secrets include_sidecars !! k
  = container_definition !! k.
Proof.
  intros Hk.
  assert (k ≠ "name" ∧ k ≠ "image" ∧ k ≠ "entryPoint" ∧ k ≠ "command" ∧
          k ≠ "environment" ∧ k ≠ "secrets" ∧ k ≠ "dependsOn")
    as (? & ? & ? & ? & ? & ? & ?).
  { unfold overridden_keys in Hk. set_solver. }
  unfold new_container_definition, merge_dicts. simpl foldl.
  rewrite !lookup_dict_update, !lookup_optional_entry, lookup_empty.
  rewrite !decide_False by done.
  rewrite !lookup_insert_ne by done.
  destruct include_sidecars;
    [rewrite lookup_empty | rewrite lookup_singleton_ne by done];
    by destruct (container_definition !! k).
Qed.

Lemma new_container_definition_idempotent (container_definition : dict)
    (image container_name environment command secrets : value)
    (include_sidecars : bool) :
  new_container_definition
    (new_container_definition container_definition image container_name
       environment command secrets include_sidecars)
    image container_name environment command secrets include_sidecars
  = new_container_definition container_definition image container_name
      environment command secrets include_sidecars.
Proof.
  apply map_eq. intros k.
  destruct (decide (k ∈ overridden_keys)) as [Hin|Hout].
  - unfold overridden_keys in Hin.
    repeat (apply elem_of_cons in Hin as [->|Hin]);
      [..|by apply elem_of_nil in Hin].
    + by rewrite !new_container_name.
    + by rewrite !new_container_image.
    + by rewrite !new_container_entryPoint.
    + by rewrite !new_container_command.
    + rewrite !new_container_environment. by destruct (truthy environment).
    + rewrite !new_container_secrets. by destruct (truthy secrets).
    + rewrite !new_container_dependsOn. by destruct include_sidecars.
  - by rewrite !lookup_new_container_definition_inherited.
Qed.

(** X9. The container [default_ecs_task_definition] synthesizes has for
    [command] the argument, or the empty list when the argument is empty or
    absent (the command of the current container is not inherited), and
    has for every key other than [name], [image], [entryPoint], [command],
    [environment], [secrets] and [dependsOn] exactly what the container of
    the current process has: the inherited value, or no such key. *)
Theorem default_ecs_task_definition_inherits (w : world)
    (expected_keys : list string)
    (family image container_name environment command secrets : value)
    (include_sidecars : bool)
    (current_task_definition : dict) (current_container_name : value)
    (before after : list value) (container_definition : dict) :
  current_ecs_container_name w = Ok current_container_name →
  current_task_definition !! "containerDefinitions"
  = Some (VList (before ++ VDict container_definition :: after)) →
  Forall (other_than current_container_name) before →
  container_definition !! "name" = Some current_container_name →
  Forall has_name after →
  ∃ (out new_container : dict),
    (default_ecs_task_definition w expected_keys family image container_name
       environment command secrets include_sidecars
       current_task_definition).1
    = Ok out ∧
    synthesized_container out = Some new_container ∧
    new_container !! "command"
    = Some (if truthy command then command else VList []) ∧
    (∀ k : string,
       k ∉ overridden_keys →
       new_container !! k = container_definition !! k).
Proof.
  intros Hcur Hcds Hbefore Hname Hafter.
  eexists _, _. split; [|split; [|split]].
  - by erewrite (default_ecs_task_definition_located _ _ _ _ _ _ _ _ _ _
                   Hcur include_sidecars before after container_definition).
  - apply synthesized_container_snoc.
  - apply new_container_command.
  - intros k Hk. by apply lookup_new_container_definition_inherited.
Qed.

Lemma default_ecs_task_definition_inherits_witness :
  ∃ (out new_container : dict),
    (default_ecs_task_definition fargate_world register_keys
       (VStr "job-family") (VStr "job:2") (VStr "job") VNone
       (VList [VStr "dagster"; VStr "api"]) VNone true
       (<["containerDefinitions" :=
            VList [VDict (<["cpu" := VInt 256]> run_container)]]>
          running_task_definition)).1
    = Ok out ∧
    synthesized_container out = Some new_container ∧
    new_container !! "command" = Some (VList [VStr "dagster"; VStr "api"]) ∧
    new_container !! "cpu" = Some (VInt 256) ∧
    new_container !! "memory" = None.
Proof.
  destruct (default_ecs_task_definition_inherits fargate_world
              register_keys (VStr "job-family") (VStr "job:2") (VStr "job")
              VNone (VList [VStr "dagster"; VStr "api"]) VNone true
              (<["containerDefinitions" :=
                   VList [VDict (<["cpu" := VInt 256]> run_container)]]>
                 running_task_definition)
              (VStr "run") [] [] (<["cpu" := VInt 256]> run_container))
    as (out & new_container & Hout & Hlast & Hcommand & Hinherited).
  - reflexivity.
  - reflexivity.
  - constructor.
  - reflexivity.
  - constructor.
  - exists out, new_container. conjuncts; try assumption.
    + rewrite Hinherited; [reflexivity | by_evaluation].
    + rewrite Hinherited; [reflexivity | by_evaluation].
Defined.

(** X10. With sidecars, when the new container keeps the name of the
    current container and no other container carries that name, the call
    can be repeated: the second call on the same dictionary returns what
    the first returned and changes nothing more. *)
Theorem default_ecs_task_definition_sidecars_same_name (w : world)
    (expected_keys : list string)
    (family image container_name environment command secrets : value)
    (current_task_definition : dict)
    (before after : list value) (container_definition : dict) :
  current_ecs_container_name w = Ok container_name →
  current_task_definition !! "containerDefinitions"
  = Some (VList (before ++ VDict container_definition :: after)) →
  Forall (other_than container_name) before →
  container_definition !! "name" = Some container_name →
  Forall (other_than container_name) after →
  ∃ out after_call : dict,
    default_ecs_task_definition w expected_keys family image container_name
      environment command secrets true current_task_definition
    = (Ok out, after_call) ∧
    default_ecs_task_definition w expected_keys family image container_name
      environment command secrets true after_call
    = (Ok out, after_call).
Proof.
  intros Hcur Hcds Hbefore Hname Hafter.
  eexists _, _. split.
  - apply (default_ecs_task_definition_located _ _ _ _ _ _ _ _ _ _ Hcur
             true before after container_definition Hcds Hbefore Hname).
    by eapply other_than_has_name.
  - cbv zeta.
    rewrite (default_ecs_task_definition_located _ _ _ _ _ _ _ _ _ _ Hcur
               true (before ++ after) []
               (new_container_definition container_definition image
                  container_name environment command secrets true)).
    + cbv zeta. rewrite new_container_definition_idempotent, app_nil_r.
      f_equal; [f_equal|].
      * apply map_eq. intros k.
        destruct (decide (k = "containerDefinitions")) as [->|Hk];
          [by rewrite !lookup_insert_eq|].
        rewrite !(lookup_insert_ne _ "containerDefinitions") by done.
        destruct (decide (k = "family")) as [->|Hf];
          [by rewrite !lookup_insert_eq|].
        rewrite !(lookup_insert_ne _ "family") by done.
        rewrite !lookup_restrict_keys.
        by rewrite lookup_insert_ne by done.
      * apply insert_insert_eq.
    + by rewrite lookup_insert_eq.
    + apply Forall_app. by split.
    + apply new_container_name.
    + constructor.
Qed.

Lemma default_ecs_task_definition_sidecars_same_name_witness :
  ∃ out after_call : dict,
    default_ecs_task_definition fargate_world register_keys
      (VStr "job-family") (VStr "job:2") (VStr "run") VNone VNone VNone
      true running_task_definition
    = (Ok out, after_call) ∧
    default_ecs_task_definition fargate_world register_keys
      (VStr "job-family") (VStr "job:2") (VStr "run") VNone VNone VNone
      true after_call
    = (Ok out, after_call).
Proof.
  apply (default_ecs_task_definition_sidecars_same_name fargate_world
           register_keys (VStr "job-family") (VStr "job:2") (VStr "run")
           VNone VNone VNone running_task_definition
           [VDict logs_container] [] run_container).
  - reflexivity.
  - reflexivity.
  - by_evaluation.
  - reflexivity.
  - constructor.
Defined.

(** ** When the synthesizer returns *)

(** X11. [default_ecs_task_definition] returns a task definition exactly
    when the lookup of the current container name succeeds and the current
    task definition has, under [containerDefinitions], a list of
    dictionaries that all have a [name], one of which carries the current
    name (the list is split at the first one that does). *)
Theorem default_ecs_task_definition_returns_iff (w : world)
    (expected_keys : list string)
    (family image container_name environment command secrets : value)
    (include_sidecars : bool) (current_task_definition : dict) :
  (∃ out : dict,
     (default_ecs_task_definition w expected_keys family image
        container_name environment command secrets include_sidecars
        current_task_definition).1
     = Ok out)
  ↔
  (∃ (current_container_name : value) (before after : list value)
     (container_definition : dict),
     current_ecs_container_name w = Ok current_container_name ∧
     current_task_definition !! "containerDefinitions"
     = Some (VList (before ++ VDict container_definition :: after)) ∧
     Forall (other_than current_container_name) before ∧
     container_definition !! "name" = Some current_container_name ∧
     Forall has_name after).
Proof.
  split.
  - intros [out Hout]. by eapply default_ecs_task_definition_ok_inv.
  - intros (cur & before & after & cd & Hcur & Hcds & Hbefore & Hname
            & Hafter).
    eexists.
    by erewrite (default_ecs_task_definition_located _ _ _ _ _ _ _ _ _ _
                   Hcur include_sidecars before after cd).
Qed.

(** ** The synthesizer on a definition made by [task_definition] *)

Lemma container_definition_name (self : DagsterEcsTaskConfig.t) :
  DagsterEcsTaskConfig.container_definition self !! "name"
  = Some (DagsterEcsTaskConfig.container_name self).
Proof.
  unfold DagsterEcsTaskConfig.container_definition. merge_lookup.
  destruct (truthy (DagsterEcsTaskConfig.log_configuration self)),
    (truthy (DagsterEcsTaskConfig.command self)),
    (truthy (DagsterEcsTaskConfig.secrets self)),
    (truthy (DagsterEcsTaskConfig.environment self));
    reflexivity.
Qed.

Lemma container_definition_image (self : DagsterEcsTaskConfig.t) :
  DagsterEcsTaskConfig.container_definition self !! "image"
  = Some (DagsterEcsTaskConfig.image self).
Proof.
  unfold DagsterEcsTaskConfig.container_definition. merge_lookup.
  destruct (truthy (DagsterEcsTaskConfig.log_configuration self)),
    (truthy (DagsterEcsTaskConfig.command self)),
    (truthy (DagsterEcsTaskConfig.secrets self)),
    (truthy (DagsterEcsTaskConfig.environment self));
    reflexivity.
Qed.

(** X12. The document [task_definition] makes for a configuration can be
    the current task definition of [default_ecs_task_definition]: when the
    metadata endpoint reports the container name of the configuration,
    the call without sidecars returns a single container that carries the
    requested name and image and keeps the [logConfiguration] of the
    configuration (present exactly when it is not empty). *)
Theorem default_ecs_task_definition_of_task_definition (w : world)
    (expected_keys : list string)
    (family image container_name environment command secrets : value)
    (self : DagsterEcsTaskConfig.t) :
  current_ecs_container_name w
  = Ok (DagsterEcsTaskConfig.container_name self) →
  ∃ (out new_container : dict),
    default_ecs_task_definition w expected_keys family image container_name
      environment command secrets false
      (DagsterEcsTaskConfig.task_definition self)
    = (Ok out, DagsterEcsTaskConfig.task_definition self) ∧
    container_definitions_of out = [VDict new_container] ∧
    out !! "family" = Some family ∧
    new_container !! "name" = Some container_name ∧
    new_container !! "image" = Some image ∧
    new_container !! "logConfiguration"
    = (if truthy (DagsterEcsTaskConfig.log_configuration self)
       then Some (DagsterEcsTaskConfig.log_configuration self) else None).
Proof.
  intros Hcur. eexists _, _. split; [|conjuncts].
  - apply (default_ecs_task_definition_located _ _ _ _ _ _ _ _ _ _ Hcur
             false [] [] (DagsterEcsTaskConfig.container_definition self)).
    + by rewrite task_definition_lookup by discriminate.
    + constructor.
    + apply container_definition_name.
    + constructor.
  - unfold container_definitions_of. by rewrite lookup_insert_eq.
  - by rewrite lookup_insert_ne, lookup_insert_eq.
  - apply new_container_name.
  - apply new_container_image.
  - rewrite lookup_new_container_definition_inherited by by_evaluation.
    by destruct (container_definition_optional self) as (-> & _).
Qed.

Lemma default_ecs_task_definition_of_task_definition_witness :
  ∃ (out new_container : dict),
    default_ecs_task_definition fargate_world register_keys
      (VStr "job-family") (VStr "job:2") (VStr "job") VNone VNone VNone
      false (DagsterEcsTaskConfig.task_definition sample_config)
    = (Ok out, DagsterEcsTaskConfig.task_definition sample_config) ∧
    container_definitions_of out = [VDict new_container] ∧
    out !! "family" = Some (VStr "job-family") ∧
    new_container !! "name" = Some (VStr "job") ∧
    new_container !! "image" = Some (VStr "job:2") ∧
    new_container !! "logConfiguration"
    = Some (VDict {[ "logDriver" := VStr "awslogs" ]}).
Proof.
  apply (default_ecs_task_definition_of_task_definition fargate_world
           register_keys (VStr "job-family") (VStr "job:2") (VStr "job")
           VNone VNone VNone sample_config).
  reflexivity.
Defined.

(** ** The loops of the projector *)

Lemma detail_values_app (key : string) (l1 l2 : list value) :
  detail_values key (l1 ++ l2)
  = detail_values key l1 ++ detail_values key l2.
Proof. apply omap_app. Qed.

Lemma detail_values_cons (key : string) (m : dict) (l : list value) :
  detail_values key (VDict m :: l)
  = match (if bool_decide (m !! "name" = Some (VStr key))
           then m !! "value" else None) with
    | Some v => v :: detail_values key l
    | None => detail_values key l
    end.
Proof. reflexivity. Qed.

Lemma scan_details_ok (ec2 : value → NetworkInterface)
    (details : list value) :
  ∀ acc r : list NetworkInterface * list value,
    scan_details ec2 details acc = Ok r →
    r.1 = acc.1 ++ (ec2 <$> detail_values "networkInterfaceId" details) ∧
    r.2 = acc.2 ++ detail_values "subnetId" details.
Proof.
  induction details as [|detail details IH]; intros acc r.
  - intros [= <-]. simpl. by rewrite !app_nil_r.
  - cbn [scan_details].
    destruct detail as [| | | | |m]; try discriminate.
    cbn [getitem]. destruct (m !! "name") as [n|] eqn:Hn; [|discriminate].
    cbn [mbind result_bind]. rewrite !detail_values_cons, Hn.
    repeat case_bool_decide; simplify_eq;
      destruct (m !! "value") as [v|]; try discriminate;
      cbn [mbind result_bind]; intros Hr;
      destruct (IH _ _ Hr) as [-> ->]; cbn [fst snd fmap list_fmap];
      by rewrite <- ?app_assoc.
Qed.

Lemma interface_details_cons (d : dict) (attachments : list value) :
  interface_details (VDict d :: attachments)
  = (if bool_decide (d !! "type" = Some (VStr "ElasticNetworkInterface"))
     then match d !! "details" with
          | Some v => match iter_value v with Ok l => l | Err _ => [] end
          | None => []
          end
     else []) ++ interface_details attachments.
Proof. reflexivity. Qed.

Lemma scan_attachments_ok (ec2 : value → NetworkInterface)
    (attachments : list value) :
  ∀ acc r : list NetworkInterface * list value,
    scan_attachments ec2 attachments acc = Ok r →
    r.1 = acc.1 ++ (ec2 <$> detail_values "networkInterfaceId"
                              (interface_details attachments)) ∧
    r.2 = acc.2 ++ detail_values "subnetId" (interface_details attachments).
Proof.
  induction attachments as [|a attachments IH]; intros acc r.
  - intros [= <-]. simpl. by rewrite !app_nil_r.
  - cbn [scan_attachments].
    destruct a as [| | | | |d]; try discriminate.
    cbn [getitem]. destruct (d !! "type") as [type|] eqn:Htype;
      [|discriminate].
    cbn [mbind result_bind]. rewrite !interface_details_cons, Htype.
    repeat case_bool_decide; simplify_eq.
    + destruct (d !! "details") as [v|]; [|discriminate].
      cbn [mbind result_bind].
      destruct (iter_value v) as [details|]; [|discriminate].
      cbn [mbind result_bind].
      destruct (scan_details ec2 details acc) as [acc'|] eqn:Hacc;
        [|discriminate].
      cbn [mbind result_bind]. intros Hr.
      destruct (IH _ _ Hr) as [-> ->].
      destruct (scan_details_ok _ _ _ _ Hacc) as [-> ->].
      by rewrite !detail_values_app, fmap_app, <- !app_assoc.
    + cbn [mbind result_bind]. intros Hr.
      by destruct (IH _ _ Hr) as [-> ->].
Qed.

Lemma scan_details_total (ec2 : value → NetworkInterface)
    (details : list value) :
  forallb readable_detail details = true →
  ∀ acc, ∃ r, scan_details ec2 details acc = Ok r.
Proof.
  induction details as [|detail details IH]; intros Hwf acc;
    [by eexists|].
  apply andb_prop in Hwf as [Hdetail Hwf]. cbn [scan_details].
  destruct detail as [| | | | |m]; try discriminate.
  cbn [getitem readable_detail] in *.
  destruct (m !! "name") as [n|]; [|discriminate].
  cbn [mbind result_bind].
  destruct (bool_decide (n = VStr "subnetId")),
    (bool_decide (n = VStr "networkInterfaceId"));
    cbn [orb] in Hdetail;
    try (apply bool_decide_eq_true in Hdetail as [v ->]);
    cbn [mbind result_bind]; apply (IH Hwf).
Qed.

Lemma scan_attachments_total (ec2 : value → NetworkInterface)
    (attachments : list value) :
  forallb readable_attachment attachments = true →
  ∀ acc, ∃ r, scan_attachments ec2 attachments acc = Ok r.
Proof.
  induction attachments as [|a attachments IH]; intros Hwf acc;
    [by eexists|].
  apply andb_prop in Hwf as [Ha Hwf]. cbn [scan_attachments].
  destruct a as [| | | | |d]; try discriminate.
  cbn [getitem readable_attachment] in *.
  destruct (d !! "type") as [type|]; [|discriminate].
  cbn [mbind result_bind].
  destruct (bool_decide (type = VStr "ElasticNetworkInterface")).
  - destruct (d !! "details") as [[| | | |l|]|]; try discriminate.
    cbn [mbind result_bind iter_value].
    destruct (scan_details_total ec2 l Ha acc) as [acc' ->].
    cbn [mbind result_bind]. apply (IH Hwf).
  - cbn [mbind result_bind]. apply (IH Hwf).
Qed.

(** X13. The loop over the attachments of a task reads a task of the
    documented shape without an exception, and whenever it completes, the
    subnets it has collected are the values of the [subnetId] details of
    the attachments of type [ElasticNetworkInterface], and the interfaces
    are those of the values of their [networkInterfaceId] details, each in
    the order of the task; attachments of another type contribute
    nothing. *)
Theorem scan_attachments_collects (ec2 : value → NetworkInterface)
    (attachments : list value) :
  let collected :=
    (ec2 <$> detail_values "networkInterfaceId"
               (interface_details attachments),
     detail_values "subnetId" (interface_details attachments)) in
  (∀ r, scan_attachments ec2 attachments ([], []) = Ok r → r = collected) ∧
  (forallb readable_attachment attachments = true →
   scan_attachments ec2 attachments ([], []) = Ok collected).
Proof.
  cbv zeta.
  assert (∀ r, scan_attachments ec2 attachments ([], []) = Ok r →
               r = (ec2 <$> detail_values "networkInterfaceId"
                              (interface_details attachments),
                    detail_values "subnetId"
                      (interface_details attachments))) as Hok.
  { intros r Hr. destruct (scan_attachments_ok _ _ _ _ Hr) as [H1 H2].
    destruct r as [enis subnets]. simpl in H1, H2. by subst. }
  split; [exact Hok|].
  intros Hwf.
  destruct (scan_attachments_total ec2 attachments Hwf ([], []))
    as [r Hr].
  by rewrite Hr, (Hok r Hr).
Qed.

Lemma scan_attachments_collects_witness :
  interface_details observed_attachments
  = [detail "subnetId" "subnet-1"; detail "networkInterfaceId" "eni-1";
     detail "macAddress" "0a:1b";
     detail "subnetId" "subnet-2"; detail "networkInterfaceId" "eni-2"] ∧
  scan_attachments sample_ec2 observed_attachments ([], [])
  = Ok (sample_ec2 <$> detail_values "networkInterfaceId"
                         (interface_details observed_attachments),
        detail_values "subnetId" (interface_details observed_attachments)).
Proof.
  split; [reflexivity|].
  apply (proj2 (scan_attachments_collects sample_ec2 observed_attachments)).
  reflexivity.
Defined.

Lemma scan_groups_total (l : list value) :
  forallb readable_group l = true →
  ∀ acc, ∃ r, scan_groups l acc = Ok r.
Proof.
  induction l as [|g l IH]; intros Hwf acc; [by eexists|].
  apply andb_prop in Hwf as [Hg Hwf]. cbn [scan_groups].
  destruct g as [| | | | |d]; try discriminate.
  apply bool_decide_eq_true in Hg as [id Hid].
  cbn [getitem]. rewrite Hid. cbn [mbind result_bind]. apply (IH Hwf).
Qed.

Lemma scan_enis_total (enis : list NetworkInterface) :
  forallb readable_interface enis = true →
  ∀ acc, ∃ r, scan_enis enis acc = Ok r.
Proof.
  induction enis as [|eni enis IH]; intros Hwf acc; [by eexists|].
  apply andb_prop in Hwf as [Heni Hwf]. cbn [scan_enis].
  apply andb_prop in Heni as [Hassociation Hgroups].
  assert (∃ ip, dict_get (if truthy (association_attribute eni)
                          then association_attribute eni else VDict ∅)
                  "PublicIp" = Ok ip) as [ip ->].
  { destruct (association_attribute eni) as [| | | | |d];
      try discriminate; [by eexists|].
    destruct (truthy (VDict d)); by eexists. }
  cbn [mbind result_bind].
  destruct (groups eni) as [| | | |l|]; try discriminate.
  cbn [mbind result_bind iter_value].
  destruct (scan_groups_total l Hgroups acc.2) as [sg ->].
  cbn [mbind result_bind]. apply (IH Hwf).
Qed.

(** X14. The loop over the collected interfaces reads interfaces of the
    documented shape without an exception, and whenever it completes, the
    public address flag is set if and only if some interface reports an
    associated public address, and the security groups are the group
    identifiers of all the interfaces, in order and with repetitions. *)
Theorem scan_enis_collects (enis : list NetworkInterface) :
  let collected :=
    (existsb reports_public_ip enis, concat (group_ids <$> enis)) in
  (∀ r, scan_enis enis (false, []) = Ok r → r = collected) ∧
  (forallb readable_interface enis = true →
   scan_enis enis (false, []) = Ok collected).
Proof.
  cbv zeta.
  assert (∀ r, scan_enis enis (false, []) = Ok r →
               r = (existsb reports_public_ip enis,
                    concat (group_ids <$> enis))) as Hok.
  { intros r Hr. destruct (scan_enis_ok _ _ _ Hr) as [H1 H2].
    destruct r as [public_ip security_groups]. simpl in H1, H2.
    by subst. }
  split; [exact Hok|].
  intros Hwf. destruct (scan_enis_total enis Hwf (false, [])) as [r Hr].
  by rewrite Hr, (Hok r Hr).
Qed.

Lemma scan_enis_collects_witness :
  scan_enis [sample_ec2 (VStr "eni-1"); sample_ec2 (VStr "eni-2")]
    (false, [])
  = Ok (existsb reports_public_ip
          [sample_ec2 (VStr "eni-1"); sample_ec2 (VStr "eni-2")],
        concat (group_ids <$>
                  [sample_ec2 (VStr "eni-1"); sample_ec2 (VStr "eni-2")])).
Proof.
  apply (proj2 (scan_enis_collects
                  [sample_ec2 (VStr "eni-1"); sample_ec2 (VStr "eni-2")])).
  reflexivity.
Defined.

(** ** The projector as a whole *)

(** X15. [current_ecs_task_config] raises for every input.  When the two
    loops complete, the exception is the [KeyError] of
    [task_definition["family"]] if the task definition has no family, and
    otherwise the [TypeError] of the call of [DagsterEcsTaskConfig], which
    is not given [command] and [log_configuration]. *)
Theorem current_ecs_task_config_raises (ec2 : value → NetworkInterface)
    (cluster task : value) (task_definition : dict)
    (environment secrets container_name image : value) :
  (∃ e : exn,
     current_ecs_task_config ec2 cluster task task_definition environment
       secrets container_name image = Err e) ∧
  (∀ (attachments : value) (l : list value)
     (found : list NetworkInterface * list value)
     (inspected : bool * list value),
     getitem task "attachments" = Ok attachments →
     iter_value attachments = Ok l →
     scan_attachments ec2 l ([], []) = Ok found →
     scan_enis found.1 (false, []) = Ok inspected →
     current_ecs_task_config ec2 cluster task task_definition environment
       secrets container_name image
     = Err (match task_definition !! "family" with
            | Some _ => TypeError
            | None => KeyError
            end)).
Proof.
  split.
  - pose proof (current_ecs_task_config_never_returns ec2 cluster task
                  task_definition environment secrets container_name image)
      as Herr.
    destruct (current_ecs_task_config _ _ _ _ _ _ _ _) as [c|e];
      [destruct Herr | by exists e].
  - intros attachments l found inspected Ha Hl Hfound Hinspected.
    unfold current_ecs_task_config.
    rewrite Ha. cbn [mbind result_bind]. rewrite Hl.
    cbn [mbind result_bind]. rewrite Hfound. cbn [mbind result_bind].
    rewrite Hinspected. cbn [mbind result_bind getitem].
    destruct (task_definition !! "family"); [|reflexivity].
    cbn [mbind result_bind]. by rewrite init_missing_command.
Qed.

Lemma current_ecs_task_config_raises_witness :
  current_ecs_task_config sample_ec2 (VStr "arn:cluster") observed_task
    observed_task_definition VNone VNone (VStr "run") (VStr "dagster:1")
  = Err TypeError ∧
  current_ecs_task_config sample_ec2 (VStr "arn:cluster") observed_task ∅
    VNone VNone (VStr "run") (VStr "dagster:1")
  = Err KeyError.
Proof.
  split.
  - exact (proj2 (current_ecs_task_config_raises sample_ec2
                    (VStr "arn:cluster") observed_task
                    observed_task_definition VNone VNone (VStr "run")
                    (VStr "dagster:1"))
             _ _ _ _ eq_refl eq_refl eq_refl eq_refl).
  - exact (proj2 (current_ecs_task_config_raises sample_ec2
                    (VStr "arn:cluster") observed_task ∅ VNone VNone
                    (VStr "run") (VStr "dagster:1"))
             _ _ _ _ eq_refl eq_refl eq_refl eq_refl).
Defined.

(** ** The constructor of the launch configuration *)

Lemma init_inv (kwargs : dict) (c : DagsterEcsTaskConfig.t) :
  DagsterEcsTaskConfig.init kwargs = Ok c →
  dom kwargs ⊆ (list_to_set DagsterEcsTaskConfig.fields : gset string) ∧
  kwargs !! "image" = Some (DagsterEcsTaskConfig.image c) ∧
  kwargs !! "container_name" = Some (DagsterEcsTaskConfig.container_name c) ∧
  kwargs !! "command" = Some (DagsterEcsTaskConfig.command c) ∧
  kwargs !! "family" = Some (DagsterEcsTaskConfig.family c) ∧
  kwargs !! "cluster" = Some (DagsterEcsTaskConfig.cluster c) ∧
  kwargs !! "subnets" = Some (DagsterEcsTaskConfig.subnets c) ∧
  kwargs !! "security_groups"
  = Some (DagsterEcsTaskConfig.security_groups c) ∧
  kwargs !! "execution_role_arn"
  = Some (DagsterEcsTaskConfig.execution_role_arn c) ∧
  kwargs !! "task_role_arn" = Some (DagsterEcsTaskConfig.task_role_arn c) ∧
  kwargs !! "assign_public_ip"
  = Some (DagsterEcsTaskConfig.assign_public_ip c) ∧
  kwargs !! "secrets" = Some (DagsterEcsTaskConfig.secrets c) ∧
  kwargs !! "environment" = Some (DagsterEcsTaskConfig.environment c) ∧
  kwargs !! "log_configuration"
  = Some (DagsterEcsTaskConfig.log_configuration c).
Proof.
  unfold DagsterEcsTaskConfig.init, DagsterEcsTaskConfig.arg.
  case_bool_decide; [|discriminate].
  repeat match goal with
         | |- context [kwargs !! ?k] =>
             destruct (kwargs !! k); [cbn [mbind result_bind]|discriminate]
         end.
  intros [= <-]. by conjuncts.
Qed.

Lemma init_error (kwargs : dict) (e : exn) :
  DagsterEcsTaskConfig.init kwargs = Err e → e = TypeError.
Proof.
  unfold DagsterEcsTaskConfig.init, DagsterEcsTaskConfig.arg.
  case_bool_decide; [|by intros [= <-]].
  repeat match goal with
         | |- context [kwargs !! ?k] =>
             destruct (kwargs !! k);
             [cbn [mbind result_bind]|by intros [= <-]]
         end.
  discriminate.
Qed.

Lemma lookup_kwargs_of_other (c : DagsterEcsTaskConfig.t) (k : string) :
  k ∉ DagsterEcsTaskConfig.fields → kwargs_of c !! k = None.
Proof.
  intros Hk. unfold DagsterEcsTaskConfig.fields in Hk.
  unfold kwargs_of.
  rewrite !lookup_insert_ne by (intros <-; apply Hk; by_evaluation).
  apply lookup_empty.
Qed.

Lemma init_kwargs_of (c : DagsterEcsTaskConfig.t) :
  DagsterEcsTaskConfig.init (kwargs_of c) = Ok c.
Proof. destruct c. vm_compute. reflexivity. Qed.

(** X16. A call of [DagsterEcsTaskConfig] with keyword arguments returns
    the configuration [c] exactly when the arguments are the thirteen
    fields of [c]; a call whose keywords are not exactly the thirteen
    field names, because one is missing or one is unknown, raises
    [TypeError]. *)
Theorem DagsterEcsTaskConfig_init_fields (kwargs : dict)
    (c : DagsterEcsTaskConfig.t) :
  (DagsterEcsTaskConfig.init kwargs = Ok c ↔ kwargs = kwargs_of c) ∧
  (dom kwargs ≠ (list_to_set DagsterEcsTaskConfig.fields : gset string) →
   DagsterEcsTaskConfig.init kwargs = Err TypeError).
Proof.
  split; [split|].
  - intros Hinit.
    destruct (init_inv _ _ Hinit)
      as (Hsub & ? & ? & ? & ? & ? & ? & ? & ? & ? & ? & ? & ? & ?).
    apply map_eq. intros k.
    destruct (decide (k ∈ DagsterEcsTaskConfig.fields)) as [Hin|Hout].
    + unfold DagsterEcsTaskConfig.fields in Hin.
      repeat (apply elem_of_cons in Hin as [->|Hin]);
        [..|by apply elem_of_nil in Hin]; done.
    + rewrite lookup_kwargs_of_other by done.
      apply not_elem_of_dom. intros Hk. apply Hout.
      apply Hsub in Hk. by apply elem_of_list_to_set in Hk.
  - intros ->. apply init_kwargs_of.
  - intros Hdom.
    destruct (DagsterEcsTaskConfig.init kwargs) as [c'|e] eqn:Hinit.
    + destruct (init_inv _ _ Hinit)
        as (Hsub & ? & ? & ? & ? & ? & ? & ? & ? & ? & ? & ? & ? & ?).
      destruct Hdom. apply set_eq. intros k. split; [apply Hsub|].
      rewrite elem_of_list_to_set. unfold DagsterEcsTaskConfig.fields.
      intros Hin.
      repeat (apply elem_of_cons in Hin as [->|Hin]);
        [..|by apply elem_of_nil in Hin]; by apply elem_of_dom.
    + by rewrite (init_error _ _ Hinit).
Qed.

Lemma DagsterEcsTaskConfig_init_fields_witness :
  DagsterEcsTaskConfig.init (kwargs_of sample_config) = Ok sample_config ∧
  DagsterEcsTaskConfig.init (delete "command" (kwargs_of sample_config))
  = Err TypeError ∧
  DagsterEcsTaskConfig.init
    (<["entry_point" := VNone]> (kwargs_of sample_config))
  = Err TypeError.
Proof.
  conjuncts.
  - apply (proj1 (DagsterEcsTaskConfig_init_fields
                    (kwargs_of sample_config) sample_config)).
    reflexivity.
  - apply (proj2 (DagsterEcsTaskConfig_init_fields
                    (delete "command" (kwargs_of sample_config))
                    sample_config)).
    by_evaluation.
  - apply (proj2 (DagsterEcsTaskConfig_init_fields
                    (<["entry_point" := VNone]> (kwargs_of sample_config))
                    sample_config)).
    by_evaluation.
Defined.

(** ** The keys of the document of [task_definition] *)

(** X17. The document of [task_definition] passes the family of the
    configuration on and has no key besides [family],
    [requiresCompatibilities], [networkMode], [containerDefinitions],
    [executionRoleArn], [cpu], [memory] and, for a configuration with a
    task role, [taskRoleArn]; its container definition passes the
    container name and the image on and has no key besides [name], [image]
    and those of [logConfiguration], [command], [secrets] and
    [environment] whose field is not empty. *)
Theorem task_definition_keys (self : DagsterEcsTaskConfig.t) :
  let optional (k : string) (v : value) : gset string :=
    if truthy v then {[ k ]} else ∅ in
  dom (DagsterEcsTaskConfig.task_definition self)
  = {[ "family"; "requiresCompatibilities"; "networkMode";
       "containerDefinitions"; "executionRoleArn"; "cpu"; "memory" ]}
    ∪ optional "taskRoleArn" (DagsterEcsTaskConfig.task_role_arn self) ∧
  DagsterEcsTaskConfig.task_definition self !! "family"
  = Some (DagsterEcsTaskConfig.family self) ∧
  dom (DagsterEcsTaskConfig.container_definition self)
  = {[ "name"; "image" ]}
    ∪ optional "logConfiguration"
        (DagsterEcsTaskConfig.log_configuration self)
    ∪ optional "command" (DagsterEcsTaskConfig.command self)
    ∪ optional "secrets" (DagsterEcsTaskConfig.secrets self)
    ∪ optional "environment" (DagsterEcsTaskConfig.environment self) ∧
  DagsterEcsTaskConfig.container_definition self !! "name"
  = Some (DagsterEcsTaskConfig.container_name self) ∧
  DagsterEcsTaskConfig.container_definition self !! "image"
  = Some (DagsterEcsTaskConfig.image self).
Proof.
  cbv zeta. conjuncts.
  - unfold DagsterEcsTaskConfig.task_definition, dict_update.
    destruct (truthy (DagsterEcsTaskConfig.task_role_arn self));
      rewrite ?dom_union_L, ?dom_singleton_L, !dom_insert_L, dom_empty_L;
      apply set_eq; intros k; set_unfold; tauto.
  - by rewrite task_definition_lookup by discriminate.
  - unfold DagsterEcsTaskConfig.container_definition, merge_dicts,
      dict_update, optional_entry.
    cbn [foldl].
    destruct (truthy (DagsterEcsTaskConfig.log_configuration self)),
      (truthy (DagsterEcsTaskConfig.command self)),
      (truthy (DagsterEcsTaskConfig.secrets self)),
      (truthy (DagsterEcsTaskConfig.environment self));
      rewrite !dom_union_L, ?dom_singleton_L, !dom_insert_L, ?dom_empty_L;
      apply set_eq; intros k; set_unfold; tauto.
  - apply container_definition_name.
  - apply container_definition_image.
Qed.
